(** * yara-python: the build configuration of [setup.py]

    A shallow embedding of [setup.py]: the [muted] context manager over a
    model of the process descriptor table, the capability probe
    [has_function], and the [BuildCommand] methods [finalize_options] and
    [run].  Effects are threaded through a state-and-exception monad over
    the part of the process state the script touches. *)

From Stdlib Require Import Ascii String List.
From stdpp Require Import base option list strings gmap fin_maps.

Open Scope string_scope.
Open Scope list_scope.

(** ** Python values and exceptions *)

(** The values a distutils option attribute holds: [None] until it is set,
    the integer 1 for a flag given on the command line, and whatever a
    configuration file supplied otherwise. *)
Inductive pyval : Type :=
  | PyNone
  | PyInt (n : Z)
  | PyStr (s : string).

(** Python truth value, as tested by [if v:] and [v and w]. *)
Definition truthy (v : pyval) : bool :=
  match v with
  | PyNone => false
  | PyInt n => negb (Z.eqb n 0)
  | PyStr s => negb (String.eqb s "")
  end.

Inductive exn : Type :=
  | OSError (msg : string)
  | NameError (name : string)
  | ValueError (msg : string)
  | TypeError (msg : string)
  | DistutilsOptionError (msg : string)
  | OtherError (msg : string).

Inductive outcome (A : Type) : Type :=
  | Ok (a : A)
  | Raise (e : exn).
Arguments Ok {A} a.
Arguments Raise {A} e.

(** ** Process state *)

(** The descriptor table maps a descriptor number to the open file it
    refers to, named by its path. *)
Abbreviation fdtable := (gmap nat string).

Record World : Type := mkWorld {
  fds : fdtable;                               (* open descriptors *)
  cwd : string;                                (* working directory *)
  a_out : bool;                                (* does ./a.out exist *)
  probes : list (string * option (list string)) (* compiler probes made so far *)
}.

Definition set_fds (t : fdtable) (w : World) : World :=
  mkWorld t (cwd w) (a_out w) (probes w).
Definition set_cwd (d : string) (w : World) : World :=
  mkWorld (fds w) d (a_out w) (probes w).
Definition set_a_out (b : bool) (w : World) : World :=
  mkWorld (fds w) (cwd w) b (probes w).
Definition log_probe (p : string * option (list string)) (w : World) : World :=
  mkWorld (fds w) (cwd w) (a_out w) (probes w ++ [p]).

(** ** The state-and-exception monad *)

Definition M (A : Type) : Type := World -> outcome A * World.

Definition ret {A} (a : A) : M A := fun w => (Ok a, w).
Definition raise {A} (e : exn) : M A := fun w => (Raise e, w).
Definition bind {A B} (m : M A) (k : A -> M B) : M B :=
  fun w =>
    match m w with
    | (Ok a, w') => k a w'
    | (Raise e, w') => (Raise e, w')
    end.

Declare Scope py_scope.
Delimit Scope py_scope with py.
Notation "x <- m ;; k" := (bind m (fun x => k))
  (at level 100, m at next level, right associativity) : py_scope.
Notation "m ;;; k" := (bind m (fun _ => k))
  (at level 100, right associativity) : py_scope.

(** ** Descriptor operations of the [os] module *)

Definition os_devnull : string := "/dev/null".
Definition stdout_fileno : nat := 1.
Definition stderr_fileno : nat := 2.

(** The lowest descriptor number not in use, which [open] and [dup]
    allocate.  A table of [n] entries has a free number among [0..n]. *)
Definition lowest_free (t : fdtable) : nat :=
  match List.find (fun n => bool_decide (t !! n = None)) (seq 0 (S (size t))) with
  | Some n => n
  | None => S (size t)
  end.

(** [open(path, 'w')]: a new descriptor on [path]. *)
Definition os_open (path : string) : M nat := fun w =>
  let fd := lowest_free (fds w) in
  (Ok fd, set_fds (<[fd := path]> (fds w)) w).

(** [os.dup(fd)] *)
Definition os_dup (fd : nat) : M nat := fun w =>
  match fds w !! fd with
  | Some f =>
      let fd' := lowest_free (fds w) in
      (Ok fd', set_fds (<[fd' := f]> (fds w)) w)
  | None => (Raise (OSError "Bad file descriptor"), w)
  end.

(** [os.dup2(fd, fd2)] *)
Definition os_dup2 (fd fd2 : nat) : M unit := fun w =>
  match fds w !! fd with
  | Some f => (Ok tt, set_fds (<[fd2 := f]> (fds w)) w)
  | None => (Raise (OSError "Bad file descriptor"), w)
  end.

(** [f.close()] on a file object whose descriptor is [fd]. *)
Definition os_close (fd : nat) : M unit := fun w =>
  match fds w !! fd with
  | Some _ => (Ok tt, set_fds (delete fd (fds w)) w)
  | None => (Raise (OSError "Bad file descriptor"), w)
  end.

(** ** [muted] *)

(** [old_streams = [os.dup(s.fileno()) for s in streams]] *)
Fixpoint dup_each (streams : list nat) : M (list nat) :=
  match streams with
  | [] => ret []
  | s :: rest =>
      (o <- os_dup s ;;
       os' <- dup_each rest ;;
       ret (o :: os'))%py
  end.

(** [for s in streams: os.dup2(devnull.fileno(), s.fileno())] *)
Fixpoint redirect_each (devnull : nat) (streams : list nat) : M unit :=
  match streams with
  | [] => ret tt
  | s :: rest => (os_dup2 devnull s ;;; redirect_each devnull rest)%py
  end.

(** [for o,n in zip(old_streams, streams): os.dup2(o, n.fileno())] *)
Fixpoint restore_each (pairs : list (nat * nat)) : M unit :=
  match pairs with
  | [] => ret tt
  | (o, n) :: rest => (os_dup2 o n ;;; restore_each rest)%py
  end.

(** [with muted(streams...): block] (lines 32-55).  A stream is given by
    the descriptor number its [fileno()] returns.  The local [old_streams] is [None]
    while it is unbound: the list comprehension binds it only when every
    [os.dup] has succeeded. *)
Definition muted {A} (streams : list nat) (block : M A) : M A := fun w0 =>
  let '(r0, w1) := os_open os_devnull w0 in
  match r0 with
  | Raise e => (Raise e, w1)
  | Ok devnull =>
      (* try: *)
      let '(old_streams, r, w2) :=
        match dup_each streams w1 with
        | (Raise e, w) => (None, Raise e, w)
        | (Ok olds, w) =>
            match redirect_each devnull streams w with
            | (Raise e, w') => (Some olds, Raise e, w')
            | (Ok _, w') =>
                (* yield *)
                let '(rb, w'') := block w' in (Some olds, rb, w'')
            end
        end in
      (* finally: *)
      match old_streams with
      | None => (Raise (NameError "old_streams"), w2)
      | Some olds =>
          match restore_each (zip olds streams) w2 with
          | (Raise e, w3) => (Raise e, w3)
          | (Ok _, w3) =>
              match os_close devnull w3 with
              | (Raise e, w4) => (Raise e, w4)
              | (Ok _, w4) => (r, w4)
              end
          end
      end
  end.

(** ** Strings and lists, the Python way *)

(** [s.endswith(suffix)] *)
Definition endswith (s suffix : string) : bool :=
  Nat.leb (String.length suffix) (String.length s)
  && String.eqb
       (substring (String.length s - String.length suffix) (String.length suffix) s)
       suffix.

(** [sub in s] for strings: [sub] occurs somewhere in [s]. *)
Fixpoint str_in (sub s : string) : bool :=
  String.prefix sub s
  || match s with
     | EmptyString => false
     | String _ rest => str_in sub rest
     end.

(** [x in l] for a list or tuple of strings. *)
Definition list_in (x : string) (l : list string) : bool :=
  existsb (String.eqb x) l.

(** [l.remove(x)]: drops the first occurrence, [ValueError] when there is
    none. *)
Fixpoint list_remove (x : string) (l : list string) : M (list string) :=
  match l with
  | [] => raise (ValueError "list.remove(x): x not in list")
  | y :: rest =>
      if String.eqb y x then ret rest
      else (rest' <- list_remove x rest ;; ret (y :: rest'))%py
  end.

(** [m1 and m2] where both sides are calls: the right one runs only when
    the left one is true. *)
Definition py_and (m1 m2 : M bool) : M bool :=
  (a <- m1 ;; if a then m2 else ret false)%py.

(** ** The environment of one build *)

Record Extension : Type := mkExtension {
  ext_name : string;
  ext_sources : list string;
  ext_include_dirs : list string;
  ext_library_dirs : list string;
  ext_libraries : list string;
  ext_define_macros : list (string * string);
  ext_extra_compile_args : list string
}.

(** What the script reads and writes of the inherited distutils [build]
    command: [plat_name] ([None] until the inherited [finalize_options]
    has run) and [distribution.ext_modules]. *)
Record build : Type := mkBuild {
  plat_name : option string;
  ext_modules : list Extension
}.

Record BuildCommand : Type := mkBuildCommand {
  base : build;
  dynamic_linking : pyval;
  enable_magic : pyval;
  enable_cuckoo : pyval;
  enable_profiling : pyval
}.

Definition set_base (b : build) (self : BuildCommand) : BuildCommand :=
  mkBuildCommand b (dynamic_linking self) (enable_magic self)
    (enable_cuckoo self) (enable_profiling self).

(** Everything outside [setup.py] that one run consults: the [os.path]
    functions of the host, the location of the script, the directory
    listing [os.walk] yields (by working directory and top), the answer of
    the distutils compiler object to a link probe, and the two inherited
    [build] methods. *)
Record Env : Type := mkEnv {
  os_path_dirname : string -> string;
  os_path_join : string -> string -> string;
  os_path_normpath : string -> string;
  script_file : string;
  os_walk : string -> string -> list (string * list string * list string);
  cc_has_function : string -> option (list string) -> bool;
  build_finalize_options : build -> outcome build;
  build_run : build -> M unit
}.

(** The local variables of [run] when it builds the [Extension]. *)
Record Locals : Type := mkLocals {
  sources : list string;
  exclusions : list string;
  libraries : list string;
  include_dirs : list string;
  library_dirs : list string;
  compile_args : list string;
  macros : list (string * string)
}.

(** The in-place updates [run] makes to its locals. *)
Definition sources_set (v : list string) (ls : Locals) : Locals :=
  mkLocals v (exclusions ls) (libraries ls) (include_dirs ls)
    (library_dirs ls) (compile_args ls) (macros ls).
Definition exclusions_set (v : list string) (ls : Locals) : Locals :=
  mkLocals (sources ls) v (libraries ls) (include_dirs ls)
    (library_dirs ls) (compile_args ls) (macros ls).
Definition libraries_set (v : list string) (ls : Locals) : Locals :=
  mkLocals (sources ls) (exclusions ls) v (include_dirs ls)
    (library_dirs ls) (compile_args ls) (macros ls).
Definition include_dirs_set (v : list string) (ls : Locals) : Locals :=
  mkLocals (sources ls) (exclusions ls) (libraries ls) v
    (library_dirs ls) (compile_args ls) (macros ls).
Definition library_dirs_set (v : list string) (ls : Locals) : Locals :=
  mkLocals (sources ls) (exclusions ls) (libraries ls) (include_dirs ls)
    v (compile_args ls) (macros ls).
Definition macros_set (v : list (string * string)) (ls : Locals) : Locals :=
  mkLocals (sources ls) (exclusions ls) (libraries ls) (include_dirs ls)
    (library_dirs ls) (compile_args ls) v.

Definition exclusions_append (x : string) (ls : Locals) : Locals :=
  exclusions_set (exclusions ls ++ [x]) ls.
Definition libraries_append (x : string) (ls : Locals) : Locals :=
  libraries_set (libraries ls ++ [x]) ls.
Definition include_dirs_append (x : string) (ls : Locals) : Locals :=
  include_dirs_set (include_dirs ls ++ [x]) ls.
Definition include_dirs_extend (xs : list string) (ls : Locals) : Locals :=
  include_dirs_set (include_dirs ls ++ xs) ls.
Definition library_dirs_append (x : string) (ls : Locals) : Locals :=
  library_dirs_set (library_dirs ls ++ [x]) ls.
Definition macros_append (x : string * string) (ls : Locals) : Locals :=
  macros_set (macros ls ++ [x]) ls.

Section Script.

Variable env : Env.

(** [os.chdir(d)] *)
Definition os_chdir (d : string) : M unit := fun w =>
  (Ok tt, set_cwd (os_path_join env (cwd w) d) w).

(** [os.path.exists('a.out')] and [os.remove('a.out')] *)
Definition os_path_exists_a_out : M bool := fun w => (Ok (a_out w), w).
Definition os_remove_a_out : M unit := fun w =>
  if a_out w then (Ok tt, set_a_out false w)
  else (Raise (OSError "No such file or directory"), w).

(** [os.walk(top)], read at once. *)
Definition os_walk_m (top : string)
  : M (list (string * list string * list string)) :=
  fun w => (Ok (os_walk env (cwd w) top), w).

(** [compiler.has_function(function_name, libraries=libraries)] of the
    distutils compiler object: it answers as the environment says, and a
    successful link leaves [a.out] in the working directory. *)
Definition compiler_has_function
    (function_name : string) (libs : option (list string)) : M bool :=
  fun w =>
    let result := cc_has_function env function_name libs in
    (Ok result, log_probe (function_name, libs) (set_a_out (a_out w || result) w)).

(** [has_function] (lines 58-66): [sys.stdout] and [sys.stderr] are the
    streams on descriptors 1 and 2; [new_compiler()] is taken to succeed. *)
Definition has_function
    (function_name : string) (libs : option (list string)) : M bool :=
  (result <- muted [stdout_fileno; stderr_fileno]
               (compiler_has_function function_name libs) ;;
   present <- os_path_exists_a_out ;;
   (if present then os_remove_a_out else ret tt) ;;;
   ret result)%py.

(** [BuildCommand.finalize_options] (lines 87-94).  The two adjacent
    string literals of each message concatenate, so the messages carry no
    apostrophe. *)
Definition finalize_options (self : BuildCommand) : outcome BuildCommand :=
  match build_finalize_options env (base self) with
  | Raise e => Raise e
  | Ok b =>
      let self := set_base b self in
      if truthy (enable_magic self) && truthy (dynamic_linking self) then
        Raise (DistutilsOptionError
                 "--enable-magic cant be used with --dynamic-linking")
      else if truthy (enable_cuckoo self) && truthy (dynamic_linking self) then
        Raise (DistutilsOptionError
                 "--enable-cuckoo cant be used with --dynamic-linking")
      else Ok self
  end.

(** [self.plat_name in (...)]: [None] equals no string. *)
Definition plat_name_in (self : BuildCommand) (names : list string) : bool :=
  match plat_name (base self) with
  | Some p => list_in p names
  | None => false
  end.

(** [sub in self.plat_name]: a [TypeError] on [None]. *)
Definition in_plat_name (sub : string) (self : BuildCommand) : M bool :=
  match plat_name (base self) with
  | Some p => ret (str_in sub p)
  | None => raise (TypeError "argument of type 'NoneType' is not iterable")
  end.

(** Reading the local [bits], bound only on the Windows branch. *)
Definition read_bits (bits : option string) : M string :=
  match bits with
  | Some b => ret b
  | None => raise (NameError "bits")
  end.

(** The two nested [for] loops over [os.walk] (lines 172-176). *)
Definition collect_sources (exclusions : list string)
    (walked : list (string * list string * list string))
    (sources : list string) : list string :=
  fold_left
    (fun sources '(directory, _, files) =>
       fold_left
         (fun sources x =>
            let x := os_path_normpath env (os_path_join env directory x) in
            if endswith x ".c" && negb (list_in x exclusions)
            then sources ++ [x] else sources)
         files sources)
    walked sources.

(** [if b: update(ls)], an [if] without [else] around updates of the
    locals. *)
Definition when (b : bool) (update : Locals -> Locals) (ls : Locals)
  : Locals :=
  if b then update ls else ls.

(** [BuildCommand.run] up to the assignment of
    [self.distribution.ext_modules] (lines 99-176): the locals it has
    built by then. *)
Definition run_configure (self : BuildCommand) : M Locals :=
  (let base_dir := os_path_dirname env (script_file env) in
   (if negb (String.eqb base_dir "") then os_chdir base_dir else ret tt) ;;;
   let ls :=
     mkLocals ["yara-python.c"] ["yara/libyara/modules/pe_utils.c"] ["yara"]
       [] [] [] [] in
   let building_for_windows := plat_name_in self ["win32"; "win-amd64"] in
   let bits :=
     if building_for_windows
     then Some (if plat_name_in self ["win-amd64"] then "64" else "32")
     else None in
   let ls :=
     when building_for_windows
       (fun ls => libraries_append "user32"
                    (libraries_append "advapi32"
                       (macros_append ("_CRT_SECURE_NO_WARNINGS", "1") ls)))
       ls in
   building_for_osx <- in_plat_name "macosx" self ;;
   let ls :=
     when building_for_osx
       (fun ls => library_dirs_append "/opt/local/lib"
                    (include_dirs_append "/opt/local/include" ls))
       ls in
   have_memmem <- has_function "memmem" None ;;
   let ls := when have_memmem (macros_append ("HAVE_MEMMEM", "1")) ls in
   have_strlcpy <- has_function "strlcpy" None ;;
   let ls := when have_strlcpy (macros_append ("HAVE_STRLCPY", "1")) ls in
   have_strlcat <- has_function "strlcat" None ;;
   let ls := when have_strlcat (macros_append ("HAVE_STRLCAT", "1")) ls in
   let ls := when (truthy (enable_profiling self))
               (macros_append ("PROFILING_ENABLED", "1")) ls in
   if negb (truthy (dynamic_linking self)) then
     libs <- list_remove "yara" (libraries ls) ;;
     let ls := libraries_set libs ls in
     let ls := include_dirs_extend
                 ["yara/libyara/include"; "yara/libyara/"; "."] ls in
     let ls := when building_for_windows
                 (fun ls => library_dirs_append "yara/windows/lib"
                              (include_dirs_append "yara/windows/include" ls))
                 ls in
     ls <- (if building_for_windows then
              b <- read_bits bits ;;
              ret (libraries_append ("libeay" ++ b)
                     (macros_append ("HASH", "1") ls))
            else
              hashing <- py_and (has_function "MD5_Init" (Some ["crypto"]))
                                (has_function "SHA256_Init" (Some ["crypto"])) ;;
              if (hashing : bool)
              then ret (libraries_append "crypto"
                          (macros_append ("HASH", "1") ls))
              else ret (exclusions_append "yara/libyara/modules/hash.c" ls)) ;;
     let ls :=
       if truthy (enable_magic self)
       then macros_append ("MAGIC", "1") ls
       else exclusions_append "yara/libyara/modules/magic.c" ls in
     ls <- (if truthy (enable_cuckoo self) then
              let ls := macros_append ("CUCKOO", "1") ls in
              if building_for_windows then
                b <- read_bits bits ;;
                ret (libraries_append ("jansson" ++ b) ls)
              else ret (libraries_append "jansson" ls)
            else ret (exclusions_append "yara/libyara/modules/cuckoo.c" ls)) ;;
     let ls := exclusions_set (map (os_path_normpath env) (exclusions ls)) ls in
     walked <- os_walk_m "yara/libyara/" ;;
     ret (sources_set (collect_sources (exclusions ls) walked (sources ls)) ls)
   else ret ls)%py.

(** [Extension(name='yara', sources=sources, ...)] *)
Definition extension_of (ls : Locals) : Extension :=
  mkExtension "yara" (sources ls) (include_dirs ls) (library_dirs ls)
    (libraries ls) (macros ls) (compile_args ls).

(** [BuildCommand.run] (lines 96-187): the [Extension] made of the
    locals is handed to the inherited [build.run]. *)
Definition run (self : BuildCommand) : M unit :=
  (ls <- run_configure self ;;
   build_run env (mkBuild (plat_name (base self)) [extension_of ls]))%py.

End Script.

(** ** The [os.path] functions of a POSIX host *)

Module Posix.

(** [s.split('/')] *)
Fixpoint split_slash (s : string) : list string :=
  match s with
  | EmptyString => [""]
  | String c rest =>
      if Ascii.eqb c "/" then "" :: split_slash rest
      else match split_slash rest with
           | [] => [String c ""]
           | h :: t => String c h :: t
           end
  end.

(** The loop of [posixpath.normpath] over the components. *)
Fixpoint norm_comps (initial_slashes : nat) (comps new_comps : list string)
  : list string :=
  match comps with
  | [] => new_comps
  | comp :: rest =>
      if list_in comp [""; "."] then norm_comps initial_slashes rest new_comps
      else if negb (String.eqb comp "..")
              || (Nat.eqb initial_slashes 0 && Nat.eqb (length new_comps) 0)
              || (negb (Nat.eqb (length new_comps) 0)
                  && String.eqb (List.last new_comps "") "..")
      then norm_comps initial_slashes rest (new_comps ++ [comp])
      else if negb (Nat.eqb (length new_comps) 0)
      then norm_comps initial_slashes rest (removelast new_comps)
      else norm_comps initial_slashes rest new_comps
  end.

Fixpoint slashes (n : nat) : string :=
  match n with
  | O => ""
  | S n => String "/" (slashes n)
  end.

(** [posixpath.normpath] *)
Definition normpath (path : string) : string :=
  if String.eqb path "" then "."
  else
    let initial_slashes :=
      if String.prefix "/" path then
        if String.prefix "//" path && negb (String.prefix "///" path)
        then 2 else 1
      else 0 in
    let new_comps := norm_comps initial_slashes (split_slash path) [] in
    let path := (slashes initial_slashes ++ String.concat "/" new_comps)%string in
    if String.eqb path "" then "." else path.

(** [posixpath.join(a, b)] *)
Definition join (a b : string) : string :=
  if String.prefix "/" b then b
  else if String.eqb a "" || endswith a "/" then (a ++ b)%string
  else (a ++ "/" ++ b)%string.

(** [p[:p.rfind('/') + 1]] *)
Fixpoint upto_last_slash (p : string) : string :=
  match p with
  | EmptyString => ""
  | String c rest =>
      if str_in "/" rest then String c (upto_last_slash rest)
      else if Ascii.eqb c "/" then "/" else ""
  end.

(** [s.rstrip('/')] *)
Fixpoint rstrip_slash (s : string) : string :=
  match s with
  | EmptyString => ""
  | String c rest =>
      match rstrip_slash rest with
      | EmptyString => if Ascii.eqb c "/" then "" else String c ""
      | r => String c r
      end
  end.

(** [posixpath.dirname] *)
Definition dirname (p : string) : string :=
  let head := upto_last_slash p in
  if negb (String.eqb head "") && negb (String.eqb (rstrip_slash head) "")
  then rstrip_slash head else head.

End Posix.

(** ** A sample checkout on a POSIX host *)

Module Sample.

(** What [os.walk('yara/libyara/')] yields in the checkout. *)
Definition tree : list (string * list string * list string) :=
  [ ("yara/libyara/", ["include"; "modules"],
       ["Makefile.am"; "libyara.c"; "rules.c"]);
    ("yara/libyara/include", ["yara"], ["yara.h"]);
    ("yara/libyara/include/yara", [], ["rules.h"]);
    ("yara/libyara/modules", [],
       ["cuckoo.c"; "elf.c"; "hash.c"; "magic.c"; "pe.c"; "pe_utils.c"]) ].

(** The inherited [finalize_options] as far as the script sees it: it
    fills in the platform of the host when none was given. *)
Definition finalize_base (host : string) (b : build) : outcome build :=
  Ok (mkBuild (Some (default host (plat_name b))) (ext_modules b)).

Definition env_with (host : string)
    (probe : string -> option (list string) -> bool) : Env :=
  mkEnv Posix.dirname Posix.join Posix.normpath
    "/src/yara-python/setup.py"
    (fun _ top => if String.eqb top "yara/libyara/" then tree else [])
    probe
    (finalize_base host)
    (fun _ => ret tt).

(** A glibc host with OpenSSL: [memmem] links, the BSD string functions
    do not. *)
Definition glibc_probe (f : string) (libs : option (list string)) : bool :=
  list_in f ["memmem"; "MD5_Init"; "SHA256_Init"].

(** The same host without OpenSSL. *)
Definition bare_probe (f : string) (libs : option (list string)) : bool :=
  list_in f ["memmem"].

Definition linux_env : Env := env_with "linux-x86_64" glibc_probe.
Definition bare_env : Env := env_with "linux-x86_64" bare_probe.

(** A process with its three standard descriptors on a terminal. *)
Definition world : World :=
  mkWorld (<[0 := "/dev/tty"]> (<[1 := "/dev/tty"]> (<[2 := "/dev/tty"]> ∅)))
    "/home/user" false [].

(** A process started with its three standard descriptors closed. *)
Definition detached : World := mkWorld ∅ "/" false [].

(** A process started with only its standard output open. *)
Definition only_stdout : World :=
  mkWorld (<[1 := "/tmp/build.log"]> ∅) "/" false [].

(** A process in the checkout itself, its output going to a log file,
    and the script given by its bare name. *)
Definition logged : World :=
  mkWorld (<[0 := "/dev/null"]>
             (<[1 := "/tmp/build.log"]> (<[2 := "/tmp/build.log"]> ∅)))
    "/src/yara-python" true [].

Definition local_env : Env :=
  mkEnv Posix.dirname Posix.join Posix.normpath
    "setup.py"
    (fun _ top => if String.eqb top "yara/libyara/" then tree else [])
    glibc_probe
    (finalize_base "linux-x86_64")
    (fun _ => raise (OtherError "command 'gcc' failed with exit status 1")).

Definition command (plat : string) (dyn magic cuckoo prof : pyval)
  : BuildCommand :=
  mkBuildCommand (mkBuild (Some plat) []) dyn magic cuckoo prof.

End Sample.

(** ** What a run is about *)

(** Both standard streams are open descriptors. *)
Definition std_open (w : World) : Prop :=
  is_Some (fds w !! stdout_fileno) /\ is_Some (fds w !! stderr_fileno).

(** A managed block that keeps its hands off the descriptors it was not
    given: it may do anything to the muted streams and may open new
    descriptors, every other open one it leaves as it is. *)
Definition leaves_other_descriptors {A} (streams : list nat) (block : M A)
  : Prop :=
  forall w fd,
    ~ In fd streams -> is_Some (fds w !! fd) ->
    fds (snd (block w)) !! fd = fds w !! fd.

(** [m], started in [w], returns normally, with a value and in a state
    that satisfy [Q]. *)
Definition returns {A} (m : M A) (w : World) (Q : A -> World -> Prop) : Prop :=
  match m w with
  | (Ok a, w') => Q a w'
  | (Raise _, _) => False
  end.

Definition set_enable_profiling (v : pyval) (self : BuildCommand)
  : BuildCommand :=
  mkBuildCommand (base self) (dynamic_linking self) (enable_magic self)
    (enable_cuckoo self) v.

(** *** The locals in closed form

    What [run_configure] leaves in each local, written as a function of
    the platform name, the flags, the answers of the compiler and the
    listing of [yara/libyara/].  That the embedding of [run] computes
    exactly these is proved below ([run_configure_returns]); the claims
    are then read off them. *)

Section Derived.

Variable env : Env.
Variable self : BuildCommand.

Definition on_windows : bool := plat_name_in self ["win32"; "win-amd64"].
Definition win_bits : string :=
  if plat_name_in self ["win-amd64"] then "64" else "32".
Definition on_osx : bool :=
  match plat_name (base self) with
  | Some p => str_in "macosx" p
  | None => false
  end.
Definition static_build : bool := negb (truthy (dynamic_linking self)).

(** The hashing probe: both digests link against [crypto]. *)
Definition hashing_probe : bool :=
  cc_has_function env "MD5_Init" (Some ["crypto"])
  && cc_has_function env "SHA256_Init" (Some ["crypto"]).

Definition opt {A} (b : bool) (l : list A) : list A := if b then l else [].

Definition derived_macros : list (string * string) :=
  opt on_windows [("_CRT_SECURE_NO_WARNINGS", "1")]
  ++ opt (cc_has_function env "memmem" None) [("HAVE_MEMMEM", "1")]
  ++ opt (cc_has_function env "strlcpy" None) [("HAVE_STRLCPY", "1")]
  ++ opt (cc_has_function env "strlcat" None) [("HAVE_STRLCAT", "1")]
  ++ opt (truthy (enable_profiling self)) [("PROFILING_ENABLED", "1")]
  ++ opt static_build
       (opt (on_windows || hashing_probe) [("HASH", "1")]
        ++ opt (truthy (enable_magic self)) [("MAGIC", "1")]
        ++ opt (truthy (enable_cuckoo self)) [("CUCKOO", "1")]).

Definition derived_libraries : list string :=
  opt (negb static_build) ["yara"]
  ++ opt on_windows ["advapi32"; "user32"]
  ++ opt static_build
       ((if on_windows then [String.append "libeay" win_bits]
         else opt hashing_probe ["crypto"])
        ++ opt (truthy (enable_cuckoo self))
             [if on_windows then String.append "jansson" win_bits
              else "jansson"]).

Definition derived_include_dirs : list string :=
  opt on_osx ["/opt/local/include"]
  ++ opt static_build
       (["yara/libyara/include"; "yara/libyara/"; "."]
        ++ opt on_windows ["yara/windows/include"]).

Definition derived_library_dirs : list string :=
  opt on_osx ["/opt/local/lib"]
  ++ opt (static_build && on_windows) ["yara/windows/lib"].

(** The module files of the optional features that are off. *)
Definition disabled_modules : list string :=
  opt (negb on_windows && negb hashing_probe) ["yara/libyara/modules/hash.c"]
  ++ opt (negb (truthy (enable_magic self))) ["yara/libyara/modules/magic.c"]
  ++ opt (negb (truthy (enable_cuckoo self))) ["yara/libyara/modules/cuckoo.c"].

(** The exclusion list before [os.path.normpath] is mapped over it. *)
Definition excluded_paths : list string :=
  "yara/libyara/modules/pe_utils.c" :: opt static_build disabled_modules.

Definition derived_exclusions : list string :=
  if static_build then map (os_path_normpath env) excluded_paths
  else excluded_paths.

(** The files [os.walk] finds under [yara/libyara/], each as the loop
    sees it: joined to its directory and normalised. *)
Definition discovered (dir : string) : list string :=
  flat_map
    (fun '(directory, _, files) =>
       map (fun x => os_path_normpath env (os_path_join env directory x)) files)
    (os_walk env dir "yara/libyara/").

Definition derived_sources (dir : string) : list string :=
  "yara-python.c"
  :: opt static_build
       (List.filter
          (fun x => endswith x ".c" && negb (list_in x derived_exclusions))
          (discovered dir)).

Definition derived (dir : string) : Locals :=
  mkLocals (derived_sources dir) derived_exclusions derived_libraries
    derived_include_dirs derived_library_dirs [] derived_macros.

(** The compiler probes one run makes, in order. *)
Definition probes_made : list (string * option (list string)) :=
  [("memmem", None); ("strlcpy", None); ("strlcat", None)]
  ++ opt (static_build && negb on_windows)
       (("MD5_Init", Some ["crypto"])
        :: opt (cc_has_function env "MD5_Init" (Some ["crypto"]))
             [("SHA256_Init", Some ["crypto"])]).

(** The working directory after [os.chdir(base_dir)]. *)
Definition run_cwd (w : World) : string :=
  let base_dir := os_path_dirname env (script_file env) in
  if negb (String.eqb base_dir "") then os_path_join env (cwd w) base_dir
  else cwd w.

End Derived.

(** The sentence of the specification on the source list, word for word:
    besides [yara-python.c], the sources are the discovered [.c] files
    except the module files of the features that are off. *)
Definition excludes_only_disabled_modules
    (env : Env) (self : BuildCommand) (w : World) : Prop :=
  match run_configure env self w with
  | (Ok ls, w') =>
      forall x,
        In x (sources ls)
        <-> x = "yara-python.c"
            \/ (In x (discovered env (cwd w'))
                /\ endswith x ".c" = true
                /\ ~ In x (map (os_path_normpath env)
                             (disabled_modules env self)))
  | (Raise _, _) => False
  end.

(** A platform identifier that contains one of the two Windows names. *)
Definition contains_windows_marker (plat : string) : bool :=
  str_in "win32" plat || str_in "win-amd64" plat.

(** ** The rest of [BuildCommand] *)

(** [BuildCommand.initialize_options] (lines 80-85): the inherited
    [build.initialize_options], given as [build_initialize_options], then
    the four flags set to [None]. *)
Definition initialize_options (build_initialize_options : build -> build)
    (self : BuildCommand) : BuildCommand :=
  mkBuildCommand (build_initialize_options (base self))
    PyNone PyNone PyNone PyNone.

(** A block that leaves the descriptor table as it finds it, as a
    compiler run does that closes every file it opens. *)
Definition keeps_descriptors {A} (block : M A) : Prop :=
  forall w, fds (snd (block w)) = fds w.

(** From [w] to [w'] every descriptor that was open is still on its
    file, and the table has grown by two descriptors for each compiler
    probe made in between. *)
Definition leaks_two_per_probe (w w' : World) : Prop :=
  (forall fd, is_Some (fds w !! fd) -> fds w' !! fd = fds w !! fd)
  /\ size (fds w') + 2 * length (probes w)
     = size (fds w) + 2 * length (probes w').

(** * Proofs *)

(** ** The descriptor table *)

Lemma lowest_free_fresh (t : fdtable) : t !! lowest_free t = None.
Proof.
  unfold lowest_free.
  destruct (find _ _) as [n|] eqn:Hfind.
  - pose proof (find_some _ _ Hfind) as [_ Hn].
    by apply bool_decide_eq_true in Hn.
  - exfalso.
    assert (Hsub : list_to_set (seq 0 (S (size t))) ⊆ dom t).
    { intros n Hn. apply elem_of_list_to_set, list_elem_of_In in Hn.
      apply elem_of_dom.
      pose proof (find_none _ _ Hfind n Hn) as Hused.
      apply bool_decide_eq_false in Hused.
      destruct (t !! n); [eauto | done]. }
    apply subseteq_size in Hsub.
    rewrite size_list_to_set in Hsub by apply NoDup_seq.
    rewrite length_seq, size_dom in Hsub. lia.
Qed.

Lemma set_fds_set_fds (t t' : fdtable) (w : World) :
  set_fds t' (set_fds t w) = set_fds t' w.
Proof. reflexivity. Qed.

Lemma set_fds_id (w : World) : set_fds (fds w) w = w.
Proof. by destruct w. Qed.

Lemma bind_ok {A B} (m : M A) (k : A -> M B) (w w' : World) (a : A) :
  m w = (Ok a, w') -> bind m k w = k a w'.
Proof. intros H. unfold bind. by rewrite H. Qed.

Lemma Forall2_with_right {A B} (P : A -> B -> Prop) (Q : B -> Prop)
    (l1 : list A) (l2 : list B) :
  Forall2 P l1 l2 -> Forall Q l2 -> Forall2 (fun a b => P a b /\ Q b) l1 l2.
Proof.
  induction 1 as [|a b l1 l2 Hab _ IH]; intros HQ; constructor.
  - split; [done|]. by apply Forall_cons in HQ as [? _].
  - apply IH. by apply Forall_cons in HQ as [_ ?].
Qed.

(** Every [os.dup] of an open descriptor succeeds: the saved descriptors
    are new, each refers to the file of its stream, and what was open
    stays as it was. *)
Lemma dup_each_spec (streams : list nat) :
  forall w,
    Forall (fun s => is_Some (fds w !! s)) streams ->
    exists olds t',
      dup_each streams w = (Ok olds, set_fds t' w)
      /\ length olds = length streams
      /\ (forall fd, is_Some (fds w !! fd) -> t' !! fd = fds w !! fd)
      /\ Forall2 (fun o s => t' !! o = fds w !! s /\ fds w !! o = None)
           olds streams.
Proof.
  induction streams as [|s rest IH]; intros w Hopen.
  - exists [], (fds w). rewrite set_fds_id. repeat split; auto.
  - apply Forall_cons in Hopen as [[f Hs] Hrest].
    set (o := lowest_free (fds w)).
    pose proof (lowest_free_fresh (fds w)) as Hfresh. fold o in Hfresh.
    set (w1 := set_fds (<[o := f]> (fds w)) w).
    assert (Hkeep : forall fd, is_Some (fds w !! fd) ->
                               fds w1 !! fd = fds w !! fd).
    { intros fd [g Hg]. simpl. apply lookup_insert_ne. congruence. }
    destruct (IH w1) as (olds & t' & Hrun & Hlen & Hsame & Hsaved).
    { eapply Forall_impl; [exact Hrest|]. intros s' Hs'. simpl in Hs'.
      by rewrite Hkeep. }
    exists (o :: olds), t'. split; [|split; [|split]].
    + simpl. erewrite bind_ok; last first.
      { unfold os_dup. rewrite Hs. reflexivity. }
      fold o. fold w1. erewrite bind_ok; [|exact Hrun]. reflexivity.
    + simpl. by rewrite Hlen.
    + intros fd Hfd. rewrite <- (Hkeep fd Hfd). apply Hsame.
      by rewrite Hkeep.
    + constructor.
      * split; [|exact Hfresh].
        rewrite Hsame; simpl; rewrite lookup_insert_eq; [by rewrite Hs|eauto].
      * eapply Forall2_impl;
          [exact (Forall2_with_right _ _ _ _ Hsaved Hrest)|].
        intros o' s' [[Ho' Hnew] [g Hg]]. simpl in Ho', Hnew.
        apply lookup_insert_None in Hnew as [Hnew Hne]. split; [|done].
        rewrite Ho'. apply lookup_insert_ne. congruence.
Qed.

(** Redirecting: every stream ends up on the file of [devnull], nothing
    else moves. *)
Lemma redirect_each_spec (devnull : nat) (f : string) (streams : list nat) :
  forall w,
    fds w !! devnull = Some f ->
    exists t',
      redirect_each devnull streams w = (Ok tt, set_fds t' w)
      /\ (forall s, In s streams -> t' !! s = Some f)
      /\ (forall fd, ~ In fd streams -> t' !! fd = fds w !! fd).
Proof.
  induction streams as [|s rest IH]; intros w Hd.
  - exists (fds w). rewrite set_fds_id. split; [done|]. split; [|done].
    intros ? [].
  - set (w1 := set_fds (<[s := f]> (fds w)) w).
    destruct (IH w1) as (t' & Hrun & Hin & Hout).
    { simpl. destruct (decide (s = devnull)) as [->|Hne].
      - apply lookup_insert_eq.
      - by rewrite lookup_insert_ne. }
    exists t'. split; [|split].
    + simpl. erewrite bind_ok; [exact Hrun|].
      unfold os_dup2. by rewrite Hd.
    + intros s' Hs'. destruct (in_dec Nat.eq_dec s' rest) as [Hr|Hr].
      * by apply Hin.
      * destruct Hs' as [<-|Hs']; [|done].
        rewrite Hout by done. simpl. apply lookup_insert_eq.
    + intros fd Hfd. rewrite Hout by (intros ?; apply Hfd; by right).
      simpl. apply lookup_insert_ne. intros ->. apply Hfd. by left.
Qed.

(** Restoring: when each saved descriptor still refers to the file its
    stream had in [orig], every stream is back on that file afterwards. *)
Lemma restore_each_spec (orig : fdtable) (streams : list nat)
    (pairs : list (nat * nat)) :
  forall w,
    (forall o s, In (o, s) pairs ->
       fds w !! o = orig !! s /\ is_Some (orig !! s)
       /\ ~ In o streams /\ In s streams) ->
    exists t',
      restore_each pairs w = (Ok tt, set_fds t' w)
      /\ (forall o s, In (o, s) pairs -> t' !! s = orig !! s)
      /\ (forall fd, (forall o, ~ In (o, fd) pairs) -> t' !! fd = fds w !! fd).
Proof.
  induction pairs as [|[o s] rest IH]; intros w Hpairs.
  - exists (fds w). rewrite set_fds_id. split; [done|]. split; [|done].
    intros ? ? [].
  - destruct (Hpairs o s) as (Ho & [f Hf] & Hfresh & Hs); [by left|].
    set (w1 := set_fds (<[s := f]> (fds w)) w).
    destruct (IH w1) as (t' & Hrun & Hin & Hout).
    { intros o' s' Hin'.
      destruct (Hpairs o' s') as (Ho' & Hf' & Hfresh' & Hs'); [by right|].
      repeat split; try done. simpl.
      rewrite lookup_insert_ne; [done|]. intros ->. done. }
    exists t'. split; [|split].
    + simpl. erewrite bind_ok; [exact Hrun|].
      unfold os_dup2. by rewrite Ho, Hf.
    + intros o' s' [Heq|Hin'].
      * injection Heq as <- <-.
        destruct (in_dec Nat.eq_dec s (map snd rest)) as [Hlater|Hno].
        -- apply in_map_iff in Hlater as ([o'' s''] & Heq & Ho'').
           simpl in Heq. subst s''. by apply (Hin o'').
        -- rewrite Hout.
           ++ simpl. rewrite lookup_insert_eq. by rewrite Hf.
           ++ intros o'' Ho''. apply Hno. apply in_map_iff.
              by exists (o'', s).
      * by apply (Hin o').
    + intros fd Hfd. rewrite Hout.
      * simpl. apply lookup_insert_ne. intros ->. apply (Hfd o). by left.
      * intros o' Ho'. apply (Hfd o'). by right.
Qed.

Lemma Forall2_zip_In {A B} (P : A -> B -> Prop) (l1 : list A) (l2 : list B)
    (a : A) (b : B) :
  Forall2 P l1 l2 -> In (a, b) (zip l1 l2) -> P a b /\ In b l2.
Proof.
  induction 1 as [|a' b' l1 l2 Hab _ IH]; simpl; [done|].
  intros [Heq|Hin].
  - injection Heq as -> ->. split; [done | by left].
  - destruct (IH Hin). split; [done | by right].
Qed.

Lemma zip_In_right {A B} (l1 : list A) (l2 : list B) (b : B) :
  length l1 = length l2 -> In b l2 -> exists a, In (a, b) (zip l1 l2).
Proof.
  revert l1. induction l2 as [|b' l2 IH]; intros [|a' l1] Hlen Hin;
    simpl in *; try done.
  destruct Hin as [->|Hin].
  - exists a'. by left.
  - destruct (IH l1) as [a Ha]; [lia | done |]. exists a. by right.
Qed.

(** [muted] from entry to exit, for streams that are open and a block that
    keeps to its own descriptors: the block runs on a table [t_in] where
    the streams sit on the null device, its outcome is the outcome of the
    whole statement, and the table [t_out] left behind has every
    descriptor that was open on entry back on its file and the null
    device handle closed. *)
Lemma muted_run {A} (streams : list nat) (block : M A) (w : World) :
  Forall (fun s => is_Some (fds w !! s)) streams ->
  leaves_other_descriptors streams block ->
  exists t_in t_out,
    muted streams block w
    = (fst (block (set_fds t_in w)),
       set_fds t_out (snd (block (set_fds t_in w))))
    /\ (forall s, In s streams -> t_in !! s = Some os_devnull)
    /\ (forall fd, is_Some (fds w !! fd) -> t_out !! fd = fds w !! fd)
    /\ t_out !! lowest_free (fds w) = None.
Proof.
  intros Hopen Hframe.
  set (d := lowest_free (fds w)).
  pose proof (lowest_free_fresh (fds w)) as Hd. fold d in Hd.
  set (w1 := set_fds (<[d := os_devnull]> (fds w)) w).
  assert (Hw1 : forall fd, is_Some (fds w !! fd) -> fds w1 !! fd = fds w !! fd).
  { intros fd [g Hg]. simpl. apply lookup_insert_ne. congruence. }
  assert (Hopen1 : Forall (fun s => is_Some (fds w1 !! s)) streams).
  { eapply Forall_impl; [exact Hopen|]. intros s Hs. simpl in Hs.
    by rewrite Hw1. }
  assert (Hd_out : ~ In d streams).
  { intros Hin. rewrite Forall_forall in Hopen.
    destruct (Hopen d) as [g Hg]; [by apply list_elem_of_In|]. congruence. }
  destruct (dup_each_spec streams w1 Hopen1)
    as (olds & t2 & Hdup & Hlen & Hkeep2 & Hsaved).
  destruct (redirect_each_spec d os_devnull streams (set_fds t2 w1))
    as (t3 & Hredir & Hmuted & Hkeep3).
  { simpl. rewrite Hkeep2; simpl; rewrite lookup_insert_eq; eauto. }
  rewrite set_fds_set_fds in Hredir.
  change (set_fds t3 w1) with (set_fds t3 w) in Hredir.
  set (w3 := set_fds t3 w) in *.
  (* what the block finds open outside the streams is still there after *)
  assert (Hblock : forall fd g, ~ In fd streams -> t2 !! fd = Some g ->
                     fds (snd (block w3)) !! fd = Some g).
  { intros fd g Hout Hfd.
    assert (Hw3 : fds w3 !! fd = Some g).
    { subst w3. simpl. rewrite Hkeep3 by done. exact Hfd. }
    rewrite Hframe; [done | done | rewrite Hw3; eauto]. }
  assert (Hpairs : forall o s, In (o, s) (zip olds streams) ->
            fds (snd (block w3)) !! o = fds w !! s /\ is_Some (fds w !! s)
            /\ ~ In o streams /\ In s streams).
  { intros o s Hin.
    destruct (Forall2_zip_In _ _ _ _ _ Hsaved Hin) as [[Ho Hnew] Hs].
    rewrite Forall_forall in Hopen.
    pose proof (Hopen s (proj2 (list_elem_of_In _ _) Hs)) as [g Hg].
    assert (Ho_out : ~ In o streams).
    { intros Hin'. rewrite Forall_forall in Hopen1.
      destruct (Hopen1 o) as [g' Hg']; [by apply list_elem_of_In|].
      congruence. }
    rewrite Hw1 in Ho by eauto.
    split; [|by eauto]. rewrite Hg. apply Hblock; [done|]. by rewrite Ho. }
  destruct (restore_each_spec (fds w) streams (zip olds streams)
              (snd (block w3)) Hpairs)
    as (t4 & Hrestore & Hback & Hkeep4).
  assert (Hd4 : t4 !! d = Some os_devnull).
  { rewrite Hkeep4.
    - apply Hblock; [done|]. rewrite Hkeep2; simpl;
        rewrite lookup_insert_eq; eauto.
    - intros o Hin. by destruct (Hpairs o d Hin) as (_ & _ & _ & ?). }
  exists t3, (delete d t4). split; [|split; [|split]].
  - unfold muted. change (os_open os_devnull w) with (Ok d, w1).
    cbv iota beta. rewrite Hdup, Hredir. fold w3.
    destruct (block w3) as [rb w4] eqn:Hb. simpl in Hrestore |- *.
    rewrite Hrestore. unfold os_close. simpl fds. rewrite Hd4. reflexivity.
  - exact Hmuted.
  - intros fd [g Hg]. rewrite lookup_delete_ne by congruence.
    destruct (in_dec Nat.eq_dec fd streams) as [Hin|Hout].
    + destruct (zip_In_right olds streams fd Hlen Hin) as [o Ho].
      by apply (Hback o).
    + rewrite Hkeep4.
      * rewrite Hg. apply Hblock; [done|]. rewrite Hkeep2; rewrite Hw1; eauto.
      * intros o Hin. by destruct (Hpairs o fd Hin) as (_ & _ & _ & ?).
  - apply lookup_delete_eq.
Qed.

(** ** [muted], when its streams are open *)

(** X1. [muted] over streams that are open descriptors, around a block
    that leaves the descriptors it was not given alone: the block runs with
    every stream on the null device; whatever its outcome, a value or an
    exception, that is the outcome of the [with] statement; and
    afterwards every stream refers to the file it referred to on entry
    and the descriptor of the null device handle is closed. *)
Lemma muted_restores_open_streams {A} (streams : list nat) (block : M A)
    (w : World) :
  Forall (fun s => is_Some (fds w !! s)) streams ->
  leaves_other_descriptors streams block ->
  exists w_in,
    (forall s, In s streams -> fds w_in !! s = Some os_devnull)
    /\ fst (muted streams block w) = fst (block w_in)
    /\ (forall s, In s streams ->
          fds (snd (muted streams block w)) !! s = fds w !! s)
    /\ fds (snd (muted streams block w)) !! lowest_free (fds w) = None.
Proof.
  intros Hopen Hframe.
  destruct (muted_run streams block w Hopen Hframe)
    as (t_in & t_out & Hrun & Hmuted & Hback & Hclosed).
  exists (set_fds t_in w). rewrite Hrun. simpl.
  repeat split; try done.
  intros s Hs. apply Hback.
  rewrite Forall_forall in Hopen. apply Hopen. by apply list_elem_of_In.
Qed.

(** A block that fails: the compiler cannot be run. *)
Example muted_propagates_exception :
  fst (muted [stdout_fileno; stderr_fileno]
         (raise (OSError "cc: command not found") : M bool) Sample.world)
  = Raise (OSError "cc: command not found").
Proof. vm_compute. reflexivity. Qed.

(** Each use leaves the saved descriptors behind: here 4 and 5, while 3,
    the null device, is closed again. *)
Example muted_keeps_saved_descriptors :
  muted [stdout_fileno; stderr_fileno] (ret true) Sample.world
  = (Ok true,
     set_fds (<[4 := "/dev/tty"]> (<[5 := "/dev/tty"]> (fds Sample.world)))
       Sample.world).
Proof. vm_compute. reflexivity. Qed.

(** When descriptors 0 and 2 are closed, the null device takes 0 and the
    saved copy of the standard output takes 2, which is then redirected as
    the standard error: the standard output ends on the null device. *)
Example muted_closed_stderr_loses_stdout :
  muted [stdout_fileno; stderr_fileno] (ret true) Sample.only_stdout
  = (Ok true,
     set_fds (<[1 := os_devnull]>
                (<[2 := "/tmp/build.log"]> (<[3 := "/tmp/build.log"]> ∅)))
       Sample.only_stdout).
Proof. vm_compute. reflexivity. Qed.

(** ** Stepping through the monad *)

Lemma returns_ret {A} (a : A) (w : World) (Q : A -> World -> Prop) :
  Q a w -> returns (ret a) w Q.
Proof. done. Qed.

Lemma returns_bind {A B} (m : M A) (k : A -> M B) (w : World)
    (Q : B -> World -> Prop) :
  returns m w (fun a w' => returns (k a) w' Q) -> returns (bind m k) w Q.
Proof.
  unfold returns, bind. by destruct (m w) as [[a|e] w'].
Qed.

Lemma returns_run {A} (m : M A) (w : World) (Q : A -> World -> Prop) :
  returns m w Q -> exists a w', m w = (Ok a, w') /\ Q a w'.
Proof.
  unfold returns. destruct (m w) as [[a|e] w']; [eauto|done].
Qed.

(** ** [has_function] *)

Lemma compiler_leaves_descriptors (env : Env) (f : string)
    (libs : option (list string)) (streams : list nat) :
  leaves_other_descriptors streams (compiler_has_function env f libs).
Proof. intros w fd _ _. reflexivity. Qed.

(** With both standard streams open, a probe returns the answer of the
    compiler, leaves the streams open and the working directory alone,
    and is recorded once. *)
Lemma returns_has_function (env : Env) (f : string)
    (libs : option (list string)) (w : World) (Q : bool -> World -> Prop) :
  std_open w ->
  (forall w', std_open w' -> cwd w' = cwd w ->
              probes w' = probes w ++ [(f, libs)] ->
              Q (cc_has_function env f libs) w') ->
  returns (has_function env f libs) w Q.
Proof.
  intros [Hout Herr] HQ.
  destruct (muted_run [stdout_fileno; stderr_fileno]
              (compiler_has_function env f libs) w)
    as (t_in & t_out & Hrun & _ & Hback & _).
  { by repeat constructor. }
  { apply compiler_leaves_descriptors. }
  unfold returns, has_function.
  erewrite bind_ok; [|exact Hrun].
  unfold bind, os_path_exists_a_out, os_remove_a_out, ret. simpl.
  destruct (a_out w || cc_has_function env f libs); simpl;
    apply HQ; try done; split; simpl; rewrite Hback; done.
Qed.

(** ** [run] *)

Lemma collect_files_spec (g : string -> string) (p : string -> bool)
    (files : list string) :
  forall srcs,
    fold_left (fun sources x => let x := g x in
                                if p x then sources ++ [x] else sources)
      files srcs
    = srcs ++ List.filter p (map g files).
Proof.
  induction files as [|x files IH]; intros srcs; simpl.
  - by rewrite app_nil_r.
  - rewrite IH. destruct (p (g x)); [|done].
    by rewrite <- app_assoc.
Qed.

(** The two loops append, in the order of the walk, the discovered files
    that end in [.c] and are not excluded. *)
Lemma collect_sources_spec (env : Env) (excl : list string)
    (walked : list (string * list string * list string)) :
  forall srcs,
    collect_sources env excl walked srcs
    = srcs ++ List.filter
                (fun x => endswith x ".c" && negb (list_in x excl))
                (flat_map
                   (fun '(directory, _, files) =>
                      map (fun x => os_path_normpath env
                                      (os_path_join env directory x)) files)
                   walked).
Proof.
  unfold collect_sources.
  induction walked as [|[[d ds] files] walked IH]; intros srcs; simpl.
  - by rewrite app_nil_r.
  - rewrite IH, List.filter_app, app_assoc. f_equal.
    apply (collect_files_spec
             (fun x => os_path_normpath env (os_path_join env d x))
             (fun x => endswith x ".c" && negb (list_in x excl))).
Qed.

Lemma chdir_step (env : Env) (w : World) :
  (if negb (String.eqb (os_path_dirname env (script_file env)) "")
   then os_chdir env (os_path_dirname env (script_file env))
   else ret tt) w
  = (Ok tt, set_cwd (run_cwd env w) w).
Proof.
  unfold run_cwd.
  destruct (negb (String.eqb (os_path_dirname env (script_file env)) ""));
    [reflexivity|].
  by destruct w.
Qed.

Lemma Locals_eq (a b : Locals) :
  sources a = sources b -> exclusions a = exclusions b ->
  libraries a = libraries b -> include_dirs a = include_dirs b ->
  library_dirs a = library_dirs b -> compile_args a = compile_args b ->
  macros a = macros b -> a = b.
Proof. destruct a, b. simpl. by intros -> -> -> -> -> -> ->. Qed.

#[local] Arguments has_function : simpl never.
#[local] Arguments collect_sources : simpl never.
#[local] Arguments when : simpl never.

Ltac use_outcomes :=
  repeat match goal with
         | H : ?b = true |- context [?b] => rewrite H
         | H : ?b = false |- context [?b] => rewrite H
         end.

Ltac step :=
  lazymatch goal with
  | |- returns (bind (has_function _ _ _) _) _ _ =>
      apply returns_bind, returns_has_function; [assumption|];
      let w := fresh "w" in
      let Hopen := fresh "Hopen" in
      let Hcwd := fresh "Hcwd" in
      let Hlog := fresh "Hlog" in
      intros w Hopen Hcwd Hlog; use_outcomes; cbv beta iota
  | |- returns (has_function _ _ _) _ _ =>
      apply returns_has_function; [assumption|];
      let w := fresh "w" in
      let Hopen := fresh "Hopen" in
      let Hcwd := fresh "Hcwd" in
      let Hlog := fresh "Hlog" in
      intros w Hopen Hcwd Hlog; use_outcomes; cbv beta iota
  | |- returns (bind (py_and _ _) _) _ _ =>
      apply returns_bind; unfold py_and
  | |- returns (bind (os_walk_m _ _) _) _ _ =>
      apply returns_bind; unfold returns at 1, os_walk_m; cbv beta iota
  | |- returns (bind (ret _) _) _ _ =>
      apply returns_bind, returns_ret; cbv beta
  | |- returns (bind (bind _ _) _) _ _ => apply returns_bind
  | |- returns (ret _) _ _ => apply returns_ret; cbv beta
  end.

(** The locals when [run] reaches [if not self.dynamic_linking]. *)
Lemma locals_before_linking (prof strlcat strlcpy memmem osx win : bool) :
  when prof (macros_append ("PROFILING_ENABLED", "1"))
    (when strlcat (macros_append ("HAVE_STRLCAT", "1"))
       (when strlcpy (macros_append ("HAVE_STRLCPY", "1"))
          (when memmem (macros_append ("HAVE_MEMMEM", "1"))
             (when osx
                (fun ls => library_dirs_append "/opt/local/lib"
                             (include_dirs_append "/opt/local/include" ls))
                (when win
                   (fun ls =>
                      libraries_append "user32"
                        (libraries_append "advapi32"
                           (macros_append ("_CRT_SECURE_NO_WARNINGS", "1")
                              ls)))
                   (mkLocals ["yara-python.c"]
                      ["yara/libyara/modules/pe_utils.c"] ["yara"]
                      [] [] [] []))))))
  = mkLocals ["yara-python.c"] ["yara/libyara/modules/pe_utils.c"]
      ("yara" :: opt win ["advapi32"; "user32"])
      (opt osx ["/opt/local/include"])
      (opt osx ["/opt/local/lib"])
      []
      (opt win [("_CRT_SECURE_NO_WARNINGS", "1")]
       ++ opt memmem [("HAVE_MEMMEM", "1")]
       ++ opt strlcpy [("HAVE_STRLCPY", "1")]
       ++ opt strlcat [("HAVE_STRLCAT", "1")]
       ++ opt prof [("PROFILING_ENABLED", "1")]).
Proof. by destruct prof, strlcat, strlcpy, memmem, osx, win. Qed.

Ltac chain H :=
  repeat match goal with
         | E : H ?x = _ |- context [H ?x] => rewrite E
         end.

Lemma run_configure_returns (env : Env) (self : BuildCommand)
    (plat : string) (w : World) :
  plat_name (base self) = Some plat ->
  std_open w ->
  returns (run_configure env self) w
    (fun ls w' =>
       ls = derived env self (run_cwd env w)
       /\ std_open w'
       /\ cwd w' = run_cwd env w
       /\ probes w' = probes w ++ probes_made env self).
Proof.
  intros Hplat Hopen.
  unfold run_configure. cbv zeta.
  apply returns_bind. unfold returns at 1. rewrite chdir_step.
  assert (Hopen0 : std_open (set_cwd (run_cwd env w) w)) by exact Hopen.
  unfold in_plat_name, derived, derived_sources, derived_exclusions,
    excluded_paths, disabled_modules, derived_libraries, derived_macros,
    derived_include_dirs, derived_library_dirs, probes_made, hashing_probe,
    static_build, on_osx, on_windows, win_bits.
  rewrite Hplat.
  repeat step.
  rewrite !locals_before_linking.
  destruct (truthy (dynamic_linking self)) eqn:Hdyn; simpl negb; cbv iota.
  - step. split; [|split; [assumption|split]].
    + simpl. by rewrite !app_nil_r.
    + by chain cwd.
    + chain probes. simpl. by rewrite <- !app_assoc.
  - destruct (plat_name_in self ["win32"; "win-amd64"]) eqn:Hwin;
    destruct (truthy (enable_cuckoo self)) eqn:Hcuckoo;
    destruct (cc_has_function env "MD5_Init" (Some ["crypto"])) eqn:Hmd5;
    destruct (cc_has_function env "SHA256_Init" (Some ["crypto"])) eqn:Hsha;
    simpl; repeat step.
    all: split; [|split; [assumption|split]].
    all: try (by chain cwd).
    all: try (chain probes; simpl; by rewrite <- ?app_assoc).
    all: destruct (truthy (enable_magic self)); unfold when; simpl.
    all: rewrite collect_sources_spec; chain cwd; simpl.
    all: unfold discovered;
      cbv beta iota delta
        [exclusions_append libraries_append include_dirs_append
         include_dirs_extend library_dirs_append macros_append
         sources_set exclusions_set libraries_set include_dirs_set
         library_dirs_set macros_set
         sources exclusions libraries include_dirs library_dirs
         compile_args macros];
      simpl.
    all: rewrite ?app_nil_r, <- ?app_assoc; reflexivity.
Qed.

(** On a finalized command, with both standard streams open, [run] gets
    as far as the [Extension] without raising; the locals are [derived]
    and the probes made are [probes_made]. *)
Lemma run_configure_ok (env : Env) (self : BuildCommand)
    (plat : string) (w : World) :
  plat_name (base self) = Some plat ->
  std_open w ->
  exists w',
    run_configure env self w = (Ok (derived env self (run_cwd env w)), w')
    /\ std_open w'
    /\ cwd w' = run_cwd env w
    /\ probes w' = probes w ++ probes_made env self.
Proof.
  intros Hplat Hopen.
  destruct (returns_run _ _ _ (run_configure_returns env self plat w Hplat Hopen))
    as (ls & w' & Hrun & -> & Hrest).
  by exists w'.
Qed.

Lemma list_in_In (x : string) (l : list string) :
  list_in x l = true <-> In x l.
Proof.
  unfold list_in. rewrite existsb_exists. split.
  - intros (y & Hy & Heq). apply String.eqb_eq in Heq. by subst.
  - intros Hx. exists x. split; [done|]. apply String.eqb_refl.
Qed.

Lemma In_opt {A} (x : A) (b : bool) (l : list A) :
  In x (opt b l) <-> b = true /\ In x l.
Proof. destruct b; simpl; intuition discriminate. Qed.

Lemma on_windows_names (self : BuildCommand) (plat : string) :
  plat_name (base self) = Some plat ->
  (on_windows self = true <-> plat = "win32" \/ plat = "win-amd64").
Proof.
  intros Hplat. unfold on_windows, plat_name_in. rewrite Hplat.
  rewrite list_in_In. simpl. intuition.
Qed.

Lemma win_bits_names (self : BuildCommand) (plat : string) :
  plat_name (base self) = Some plat ->
  win_bits self = if String.eqb plat "win-amd64" then "64" else "32".
Proof.
  intros Hplat. unfold win_bits, plat_name_in. rewrite Hplat. simpl.
  by rewrite orb_false_r.
Qed.

(** The standard streams of the sample process are open. *)
Lemma sample_std_open : std_open Sample.world.
Proof. split; by eexists. Defined.

(** ** The claims *)

(** C1. Once the inherited [finalize_options] has returned,
    [BuildCommand.finalize_options] raises [DistutilsOptionError] exactly
    when [enable_magic] and [dynamic_linking] are both set or
    [enable_cuckoo] and [dynamic_linking] are both set; with
    [dynamic_linking] unset, or with both module flags unset, it returns
    normally. *)
Theorem finalize_options_rejects_conflicts
    (env : Env) (self : BuildCommand) (b : build) :
  build_finalize_options env (base self) = Ok b ->
  ((exists msg, finalize_options env self = Raise (DistutilsOptionError msg))
   <-> (truthy (enable_magic self) && truthy (dynamic_linking self)
        || truthy (enable_cuckoo self) && truthy (dynamic_linking self)) = true)
  /\ (truthy (dynamic_linking self) = false ->
      finalize_options env self = Ok (set_base b self))
  /\ (truthy (enable_magic self) = false ->
      truthy (enable_cuckoo self) = false ->
      finalize_options env self = Ok (set_base b self)).
Proof.
  intros Hbase. unfold finalize_options. rewrite Hbase. simpl.
  destruct (truthy (enable_magic self)), (truthy (enable_cuckoo self)),
    (truthy (dynamic_linking self)); simpl;
    (split; [split; [intros [msg Hmsg]; congruence | intros Hc]
            | split; intros; congruence]);
    solve [discriminate | eexists; reflexivity].
Qed.

Example finalize_options_magic_alone :
  finalize_options Sample.linux_env
    (Sample.command "linux-x86_64" PyNone (PyInt 1) (PyInt 1) (PyInt 1))
  = Ok (Sample.command "linux-x86_64" PyNone (PyInt 1) (PyInt 1) (PyInt 1)).
Proof. reflexivity. Qed.

Example finalize_options_cuckoo_dynamic :
  finalize_options Sample.linux_env
    (Sample.command "linux-x86_64" (PyInt 1) PyNone (PyInt 1) PyNone)
  = Raise (DistutilsOptionError
             "--enable-cuckoo cant be used with --dynamic-linking").
Proof. reflexivity. Qed.

Lemma finalize_options_rejects_conflicts_witness :
  ((exists msg,
       finalize_options Sample.linux_env
         (Sample.command "linux-x86_64" (PyInt 1) (PyInt 1) PyNone PyNone)
       = Raise (DistutilsOptionError msg))
   <-> (truthy (PyInt 1) && truthy (PyInt 1)
        || truthy PyNone && truthy (PyInt 1)) = true)
  /\ (truthy (PyInt 1) = false ->
      finalize_options Sample.linux_env
        (Sample.command "linux-x86_64" (PyInt 1) (PyInt 1) PyNone PyNone)
      = Ok (set_base (mkBuild (Some "linux-x86_64") [])
              (Sample.command "linux-x86_64" (PyInt 1) (PyInt 1) PyNone PyNone)))
  /\ (truthy (PyInt 1) = false ->
      truthy PyNone = false ->
      finalize_options Sample.linux_env
        (Sample.command "linux-x86_64" (PyInt 1) (PyInt 1) PyNone PyNone)
      = Ok (set_base (mkBuild (Some "linux-x86_64") [])
              (Sample.command "linux-x86_64" (PyInt 1) (PyInt 1) PyNone PyNone))).
Proof.
  apply (finalize_options_rejects_conflicts Sample.linux_env
           (Sample.command "linux-x86_64" (PyInt 1) (PyInt 1) PyNone PyNone)
           (mkBuild (Some "linux-x86_64") [])).
  reflexivity.
Defined.

(** C2, as the code has it.  In a static build the sources are
    [yara-python.c] and the discovered [.c] files except [pe_utils.c],
    which is always excluded, and the module files of the features that
    are off: [hash.c] off Windows when the hashing probe fails, [magic.c]
    when [enable_magic] is unset, [cuckoo.c] when [enable_cuckoo] is
    unset. *)
Theorem sources_exclude_fixed_and_disabled (env : Env) (self : BuildCommand)
    (plat : string) (w : World) :
  plat_name (base self) = Some plat ->
  truthy (dynamic_linking self) = false ->
  std_open w ->
  exists ls w',
    run_configure env self w = (Ok ls, w')
    /\ forall x,
         In x (sources ls)
         <-> x = "yara-python.c"
             \/ (In x (discovered env (cwd w'))
                 /\ endswith x ".c" = true
                 /\ ~ In x (map (os_path_normpath env)
                              ("yara/libyara/modules/pe_utils.c"
                               :: disabled_modules env self))).
Proof.
  intros Hplat Hdyn Hopen.
  destruct (run_configure_ok env self plat w Hplat Hopen)
    as (w' & Hrun & _ & Hcwd & _).
  assert (Hstatic : static_build self = true)
    by (unfold static_build; by rewrite Hdyn).
  eexists _, w'. split; [exact Hrun|]. intros x.
  unfold sources, derived, derived_sources. rewrite Hstatic, Hcwd.
  unfold opt at 1. simpl In. rewrite filter_In, andb_true_iff, negb_true_iff.
  unfold derived_exclusions, excluded_paths. rewrite Hstatic.
  unfold opt at 1.
  rewrite <- (list_in_In x
               (map (os_path_normpath env)
                  ("yara/libyara/modules/pe_utils.c"
                   :: disabled_modules env self))).
  rewrite not_true_iff_false. intuition.
Qed.

Lemma sources_exclude_fixed_and_disabled_witness :
  exists ls w',
    run_configure Sample.linux_env
      (Sample.command "linux-x86_64" PyNone PyNone (PyInt 1) PyNone)
      Sample.world = (Ok ls, w')
    /\ forall x,
         In x (sources ls)
         <-> x = "yara-python.c"
             \/ (In x (discovered Sample.linux_env (cwd w'))
                 /\ endswith x ".c" = true
                 /\ ~ In x (map (os_path_normpath Sample.linux_env)
                              ("yara/libyara/modules/pe_utils.c"
                               :: disabled_modules Sample.linux_env
                                    (Sample.command "linux-x86_64" PyNone
                                       PyNone (PyInt 1) PyNone)))).
Proof.
  apply (sources_exclude_fixed_and_disabled Sample.linux_env
           (Sample.command "linux-x86_64" PyNone PyNone (PyInt 1) PyNone)
           "linux-x86_64" Sample.world).
  - reflexivity.
  - reflexivity.
  - exact sample_std_open.
Defined.

(** C2, as the specification has it, fails: with hashing, magic and
    cuckoo all on, no feature is off, and still [pe_utils.c], which the
    walk finds, is not compiled. *)
Lemma pe_utils_is_always_excluded :
  truthy (dynamic_linking
            (Sample.command "linux-x86_64" PyNone (PyInt 1) (PyInt 1) PyNone))
  = false
  /\ disabled_modules Sample.linux_env
       (Sample.command "linux-x86_64" PyNone (PyInt 1) (PyInt 1) PyNone) = []
  /\ ~ excludes_only_disabled_modules Sample.linux_env
         (Sample.command "linux-x86_64" PyNone (PyInt 1) (PyInt 1) PyNone)
         Sample.world.
Proof.
  split; [reflexivity|]. split; [reflexivity|].
  unfold excludes_only_disabled_modules.
  destruct (run_configure_ok Sample.linux_env
              (Sample.command "linux-x86_64" PyNone (PyInt 1) (PyInt 1) PyNone)
              "linux-x86_64" Sample.world eq_refl sample_std_open)
    as (w' & -> & _ & Hcwd & _).
  intros Hclaim.
  specialize (Hclaim "yara/libyara/modules/pe_utils.c").
  rewrite Hcwd in Hclaim.
  assert (Hcompiled :
            In "yara/libyara/modules/pe_utils.c"
              (sources
                 (derived Sample.linux_env
                    (Sample.command "linux-x86_64" PyNone (PyInt 1) (PyInt 1)
                       PyNone)
                    (run_cwd Sample.linux_env Sample.world)))).
  { apply Hclaim. right. vm_compute. intuition. }
  vm_compute in Hcompiled. intuition discriminate.
Qed.

Example sample_static_sources :
  fst (run_configure Sample.linux_env
         (Sample.command "linux-x86_64" PyNone (PyInt 1) (PyInt 1) PyNone)
         Sample.world)
  = Ok (mkLocals
          ["yara-python.c"; "yara/libyara/libyara.c"; "yara/libyara/rules.c";
           "yara/libyara/modules/cuckoo.c"; "yara/libyara/modules/elf.c";
           "yara/libyara/modules/hash.c"; "yara/libyara/modules/magic.c";
           "yara/libyara/modules/pe.c"]
          ["yara/libyara/modules/pe_utils.c"]
          ["crypto"; "jansson"]
          ["yara/libyara/include"; "yara/libyara/"; "."]
          []
          []
          [("HAVE_MEMMEM", "1"); ("HASH", "1"); ("MAGIC", "1");
           ("CUCKOO", "1")]).
Proof. vm_compute. reflexivity. Qed.

(** C3, as the code has it.  When [plat_name] is [win32] or [win-amd64],
    [('_CRT_SECURE_NO_WARNINGS', '1')] is among the macros and [advapi32]
    and [user32] are among the libraries. *)
Theorem windows_names_add_macro_and_libraries (env : Env)
    (self : BuildCommand) (plat : string) (w : World) :
  plat_name (base self) = Some plat ->
  plat = "win32" \/ plat = "win-amd64" ->
  std_open w ->
  exists ls w',
    run_configure env self w = (Ok ls, w')
    /\ In ("_CRT_SECURE_NO_WARNINGS", "1") (macros ls)
    /\ In "advapi32" (libraries ls)
    /\ In "user32" (libraries ls).
Proof.
  intros Hplat Hname Hopen.
  destruct (run_configure_ok env self plat w Hplat Hopen) as (w' & Hrun & _).
  apply (on_windows_names self plat Hplat) in Hname.
  eexists _, w'. split; [exact Hrun|]. simpl.
  unfold derived_macros, derived_libraries. rewrite Hname. simpl.
  rewrite !in_app_iff. simpl. tauto.
Qed.

Lemma windows_names_add_macro_and_libraries_witness :
  exists ls w',
    run_configure Sample.bare_env
      (Sample.command "win-amd64" PyNone PyNone PyNone PyNone)
      Sample.world = (Ok ls, w')
    /\ In ("_CRT_SECURE_NO_WARNINGS", "1") (macros ls)
    /\ In "advapi32" (libraries ls)
    /\ In "user32" (libraries ls).
Proof.
  apply (windows_names_add_macro_and_libraries Sample.bare_env
           (Sample.command "win-amd64" PyNone PyNone PyNone PyNone)
           "win-amd64" Sample.world).
  - reflexivity.
  - by right.
  - exact sample_std_open.
Defined.

(** C3, as the specification has it, fails: [plat_name] is compared with
    the two names, not searched for them.  An identifier that contains
    [win32] without being it gets neither the macro nor the libraries. *)
Lemma windows_marker_is_not_enough :
  contains_windows_marker "win32-x86" = true
  /\ exists ls w',
       run_configure Sample.bare_env
         (Sample.command "win32-x86" PyNone PyNone PyNone PyNone)
         Sample.world = (Ok ls, w')
       /\ ~ In ("_CRT_SECURE_NO_WARNINGS", "1") (macros ls)
       /\ ~ In "advapi32" (libraries ls)
       /\ ~ In "user32" (libraries ls).
Proof.
  split; [reflexivity|].
  destruct (run_configure_ok Sample.bare_env
              (Sample.command "win32-x86" PyNone PyNone PyNone PyNone)
              "win32-x86" Sample.world eq_refl sample_std_open)
    as (w' & Hrun & _).
  eexists _, w'. split; [exact Hrun|].
  vm_compute. intuition discriminate.
Qed.

(** C4. A static build off Windows where [MD5_Init] or [SHA256_Init] does
    not link against [crypto] raises nothing of its own: [run] reaches the
    inherited [build.run] with the [Extension] made of locals in which
    [hash.c] is among the excluded paths, no macro named [HASH] is
    defined, and [crypto] is not among the libraries. *)
Theorem missing_crypto_narrows_silently (env : Env) (self : BuildCommand)
    (plat : string) (w : World) :
  plat_name (base self) = Some plat ->
  plat <> "win32" -> plat <> "win-amd64" ->
  truthy (dynamic_linking self) = false ->
  cc_has_function env "MD5_Init" (Some ["crypto"]) = false
  \/ cc_has_function env "SHA256_Init" (Some ["crypto"]) = false ->
  std_open w ->
  exists ls w',
    run_configure env self w = (Ok ls, w')
    /\ run env self w = build_run env (mkBuild (Some plat) [extension_of ls]) w'
    /\ (exists paths,
          exclusions ls = map (os_path_normpath env) paths
          /\ In "yara/libyara/modules/hash.c" paths)
    /\ (forall value, ~ In ("HASH", value) (macros ls))
    /\ ~ In "crypto" (libraries ls).
Proof.
  intros Hplat Hne32 Hne64 Hdyn Hprobe Hopen.
  destruct (run_configure_ok env self plat w Hplat Hopen) as (w' & Hrun & _).
  assert (Hstatic : static_build self = true)
    by (unfold static_build; by rewrite Hdyn).
  assert (Hwin : on_windows self = false).
  { destruct (on_windows self) eqn:Hwin; [|done].
    apply (on_windows_names self plat Hplat) in Hwin. tauto. }
  assert (Hhash : hashing_probe env = false).
  { unfold hashing_probe. destruct Hprobe as [-> | ->]; [done|].
    apply andb_false_r. }
  eexists _, w'. split; [exact Hrun|]. split; [|split; [|split]].
  - unfold run. erewrite bind_ok; [|exact Hrun]. by rewrite Hplat.
  - exists (excluded_paths env self). unfold exclusions, derived.
    unfold derived_exclusions. rewrite Hstatic. split; [reflexivity|].
    unfold excluded_paths, disabled_modules. rewrite Hstatic, Hwin, Hhash.
    simpl. auto.
  - intros value. simpl. unfold derived_macros.
    rewrite Hstatic, Hwin, Hhash. simpl.
    rewrite !in_app_iff, !In_opt. simpl. intuition discriminate.
  - simpl. unfold derived_libraries. rewrite Hstatic, Hwin, Hhash. simpl.
    rewrite In_opt. simpl. intuition discriminate.
Qed.

Lemma missing_crypto_narrows_silently_witness :
  exists ls w',
    run_configure Sample.bare_env
      (Sample.command "linux-x86_64" PyNone PyNone PyNone PyNone)
      Sample.world = (Ok ls, w')
    /\ run Sample.bare_env
         (Sample.command "linux-x86_64" PyNone PyNone PyNone PyNone)
         Sample.world
       = build_run Sample.bare_env
           (mkBuild (Some "linux-x86_64") [extension_of ls]) w'
    /\ (exists paths,
          exclusions ls = map (os_path_normpath Sample.bare_env) paths
          /\ In "yara/libyara/modules/hash.c" paths)
    /\ (forall value, ~ In ("HASH", value) (macros ls))
    /\ ~ In "crypto" (libraries ls).
Proof.
  apply (missing_crypto_narrows_silently Sample.bare_env
           (Sample.command "linux-x86_64" PyNone PyNone PyNone PyNone)
           "linux-x86_64" Sample.world).
  - reflexivity.
  - discriminate.
  - discriminate.
  - reflexivity.
  - left. reflexivity.
  - exact sample_std_open.
Defined.



(** The locals depend on the environment and the command only through the
    platform name, the truth values of the four flags, the answers of the
    compiler, [os.path.normpath], [os.path.join], and the listing of
    [yara/libyara/]. *)
Lemma derived_agree (env1 env2 : Env) (self1 self2 : BuildCommand)
    (dir1 dir2 : string) :
  plat_name (base self1) = plat_name (base self2) ->
  truthy (dynamic_linking self1) = truthy (dynamic_linking self2) ->
  truthy (enable_magic self1) = truthy (enable_magic self2) ->
  truthy (enable_cuckoo self1) = truthy (enable_cuckoo self2) ->
  truthy (enable_profiling self1) = truthy (enable_profiling self2) ->
  (forall f libs, cc_has_function env1 f libs = cc_has_function env2 f libs) ->
  (forall p, os_path_normpath env1 p = os_path_normpath env2 p) ->
  (forall a b, os_path_join env1 a b = os_path_join env2 a b) ->
  os_walk env1 dir1 "yara/libyara/" = os_walk env2 dir2 "yara/libyara/" ->
  derived env1 self1 dir1 = derived env2 self2 dir2.
Proof.
  intros Hplat Hdyn Hmagic Hcuckoo Hprof Hcc Hnorm Hjoin Hwalk.
  assert (Hwin : on_windows self1 = on_windows self2)
    by (unfold on_windows, plat_name_in; by rewrite Hplat).
  assert (Hbits : win_bits self1 = win_bits self2)
    by (unfold win_bits, plat_name_in; by rewrite Hplat).
  assert (Hosx : on_osx self1 = on_osx self2)
    by (unfold on_osx; by rewrite Hplat).
  assert (Hstatic : static_build self1 = static_build self2)
    by (unfold static_build; by rewrite Hdyn).
  assert (Hhash : hashing_probe env1 = hashing_probe env2)
    by (unfold hashing_probe; by rewrite !Hcc).
  assert (Hpaths : excluded_paths env1 self1 = excluded_paths env2 self2).
  { unfold excluded_paths, disabled_modules.
    by rewrite Hwin, Hstatic, Hhash, Hmagic, Hcuckoo. }
  assert (Hexcl : derived_exclusions env1 self1 = derived_exclusions env2 self2).
  { unfold derived_exclusions. rewrite Hpaths, Hstatic.
    destruct (static_build self2); [|done]. by apply map_ext. }
  assert (Hfound : discovered env1 dir1 = discovered env2 dir2).
  { unfold discovered. rewrite Hwalk. apply flat_map_ext.
    intros [[d ds] files]. apply map_ext. intros x.
    by rewrite Hjoin, Hnorm. }
  unfold derived. f_equal.
  - unfold derived_sources. by rewrite Hstatic, Hexcl, Hfound.
  - done.
  - unfold derived_libraries.
    by rewrite Hwin, Hbits, Hstatic, Hhash, Hcuckoo.
  - unfold derived_include_dirs. by rewrite Hwin, Hosx, Hstatic.
  - unfold derived_library_dirs. by rewrite Hwin, Hosx, Hstatic.
  - unfold derived_macros.
    by rewrite Hwin, Hstatic, Hhash, Hmagic, Hcuckoo, Hprof, !Hcc.
Qed.

(** C6. Two runs with the same platform name, flags of the same truth
    value, the same answers of the compiler, the same [os.path] functions
    and the same listing of [yara/libyara/] end with the same locals, and
    so with the same sources, macros and libraries, wherever the script
    lies and whatever else the two processes differ in. *)
Theorem configuration_is_deterministic (env1 env2 : Env)
    (self1 self2 : BuildCommand) (plat : string) (w1 w2 : World) :
  plat_name (base self1) = Some plat ->
  plat_name (base self2) = Some plat ->
  truthy (dynamic_linking self1) = truthy (dynamic_linking self2) ->
  truthy (enable_magic self1) = truthy (enable_magic self2) ->
  truthy (enable_cuckoo self1) = truthy (enable_cuckoo self2) ->
  truthy (enable_profiling self1) = truthy (enable_profiling self2) ->
  (forall f libs, cc_has_function env1 f libs = cc_has_function env2 f libs) ->
  (forall p, os_path_normpath env1 p = os_path_normpath env2 p) ->
  (forall a b, os_path_join env1 a b = os_path_join env2 a b) ->
  os_walk env1 (run_cwd env1 w1) "yara/libyara/"
  = os_walk env2 (run_cwd env2 w2) "yara/libyara/" ->
  std_open w1 -> std_open w2 ->
  exists ls w1' w2',
    run_configure env1 self1 w1 = (Ok ls, w1')
    /\ run_configure env2 self2 w2 = (Ok ls, w2').
Proof.
  intros Hplat1 Hplat2 Hdyn Hmagic Hcuckoo Hprof Hcc Hnorm Hjoin Hwalk
    Hopen1 Hopen2.
  destruct (run_configure_ok env1 self1 plat w1 Hplat1 Hopen1)
    as (w1' & Hrun1 & _).
  destruct (run_configure_ok env2 self2 plat w2 Hplat2 Hopen2)
    as (w2' & Hrun2 & _).
  eexists _, w1', w2'. split; [exact Hrun1|].
  rewrite Hrun2. do 2 f_equal. symmetry.
  apply derived_agree; try done. by rewrite Hplat1, Hplat2.
Qed.

(** The same build from a terminal, from another directory, and from the
    checkout with the output logged. *)
Lemma configuration_is_deterministic_witness :
  exists ls w1' w2',
    run_configure Sample.linux_env
      (Sample.command "linux-x86_64" PyNone (PyInt 1) PyNone (PyStr "yes"))
      Sample.world = (Ok ls, w1')
    /\ run_configure Sample.local_env
         (Sample.command "linux-x86_64" (PyInt 0) (PyStr "1") (PyStr "")
            (PyInt 1))
         Sample.logged = (Ok ls, w2').
Proof.
  apply (configuration_is_deterministic Sample.linux_env Sample.local_env
           (Sample.command "linux-x86_64" PyNone (PyInt 1) PyNone (PyStr "yes"))
           (Sample.command "linux-x86_64" (PyInt 0) (PyStr "1") (PyStr "")
              (PyInt 1))
           "linux-x86_64" Sample.world Sample.logged);
    try reflexivity.
  - exact sample_std_open.
  - split; by eexists.
Defined.

(** C7. [muted] does not always close the null device: when a stream has
    no open descriptor, [os.dup] raises inside the list comprehension,
    [old_streams] stays unbound, and the [finally] clause raises
    [NameError] on it before it reaches [devnull.close()].  Here the
    process has no standard descriptor open: the handle takes descriptor
    0 and is still open afterwards. *)
Theorem muted_leaves_devnull_open :
  muted [stdout_fileno; stderr_fileno] (ret true) Sample.detached
  = (Raise (NameError "old_streams"),
     set_fds (<[0 := os_devnull]> ∅) Sample.detached)
  /\ fds (snd (muted [stdout_fileno; stderr_fileno] (ret true)
                 Sample.detached))
       !! lowest_free (fds Sample.detached)
     = Some os_devnull.
Proof. split; reflexivity. Qed.

(** C8. When [plat_name] contains [macosx], [/opt/local/include] is among
    the include directories and [/opt/local/lib] among the library
    directories, whatever the flags and probes. *)
Theorem macosx_adds_opt_local (env : Env) (self : BuildCommand)
    (plat : string) (w : World) :
  plat_name (base self) = Some plat ->
  str_in "macosx" plat = true ->
  std_open w ->
  exists ls w',
    run_configure env self w = (Ok ls, w')
    /\ In "/opt/local/include" (include_dirs ls)
    /\ In "/opt/local/lib" (library_dirs ls).
Proof.
  intros Hplat Hosx Hopen.
  destruct (run_configure_ok env self plat w Hplat Hopen) as (w' & Hrun & _).
  eexists _, w'. split; [exact Hrun|]. simpl.
  unfold derived_include_dirs, derived_library_dirs, on_osx.
  rewrite Hplat, Hosx. simpl. auto.
Qed.

Lemma macosx_adds_opt_local_witness :
  exists ls w',
    run_configure Sample.linux_env
      (Sample.command "macosx-10.9-x86_64" (PyInt 1) PyNone PyNone PyNone)
      Sample.world = (Ok ls, w')
    /\ In "/opt/local/include" (include_dirs ls)
    /\ In "/opt/local/lib" (library_dirs ls).
Proof.
  apply (macosx_adds_opt_local Sample.linux_env
           (Sample.command "macosx-10.9-x86_64" (PyInt 1) PyNone PyNone PyNone)
           "macosx-10.9-x86_64" Sample.world).
  - reflexivity.
  - reflexivity.
  - exact sample_std_open.
Defined.

(** C9. With [enable_profiling] set, [('PROFILING_ENABLED', '1')] is among
    the macros, whatever the platform and the other flags; and
    [finalize_options] does not look at [enable_profiling]: changing it
    changes neither whether nor what it raises. *)
Theorem profiling_is_unconditional (env : Env) (self : BuildCommand)
    (plat : string) (w : World) :
  plat_name (base self) = Some plat ->
  truthy (enable_profiling self) = true ->
  std_open w ->
  (exists ls w',
     run_configure env self w = (Ok ls, w')
     /\ In ("PROFILING_ENABLED", "1") (macros ls))
  /\ (forall v,
        match finalize_options env self with
        | Ok self' =>
            finalize_options env (set_enable_profiling v self)
            = Ok (set_enable_profiling v self')
        | Raise e =>
            finalize_options env (set_enable_profiling v self) = Raise e
        end).
Proof.
  intros Hplat Hprof Hopen. split.
  - destruct (run_configure_ok env self plat w Hplat Hopen) as (w' & Hrun & _).
    eexists _, w'. split; [exact Hrun|]. simpl.
    unfold derived_macros. rewrite Hprof.
    rewrite !in_app_iff. do 4 right. left. by left.
  - intros v. unfold finalize_options. simpl.
    destruct (build_finalize_options env (base self)) as [b|e]; [|done].
    simpl.
    destruct (truthy (enable_magic self) && truthy (dynamic_linking self));
      [done|].
    by destruct (truthy (enable_cuckoo self) && truthy (dynamic_linking self)).
Qed.

Lemma profiling_is_unconditional_witness :
  (exists ls w',
     run_configure Sample.bare_env
       (Sample.command "linux-x86_64" (PyInt 1) PyNone PyNone (PyInt 1))
       Sample.world = (Ok ls, w')
     /\ In ("PROFILING_ENABLED", "1") (macros ls))
  /\ (forall v,
        match finalize_options Sample.bare_env
                (Sample.command "linux-x86_64" (PyInt 1) PyNone PyNone (PyInt 1))
        with
        | Ok self' =>
            finalize_options Sample.bare_env
              (set_enable_profiling v
                 (Sample.command "linux-x86_64" (PyInt 1) PyNone PyNone
                    (PyInt 1)))
            = Ok (set_enable_profiling v self')
        | Raise e =>
            finalize_options Sample.bare_env
              (set_enable_profiling v
                 (Sample.command "linux-x86_64" (PyInt 1) PyNone PyNone
                    (PyInt 1)))
            = Raise e
        end).
Proof.
  apply (profiling_is_unconditional Sample.bare_env
           (Sample.command "linux-x86_64" (PyInt 1) PyNone PyNone (PyInt 1))
           "linux-x86_64" Sample.world).
  - reflexivity.
  - reflexivity.
  - exact sample_std_open.
Defined.


(** * Further properties *)

(** ** [muted] and the descriptors it saves *)

Lemma Forall2_In_left {A B} (P : A -> B -> Prop) (l1 : list A) (l2 : list B)
    (a : A) :
  Forall2 P l1 l2 -> In a l1 -> exists b, In b l2 /\ P a b.
Proof.
  induction 1 as [|a' b' l1 l2 Hab _ IH]; simpl; [done|].
  intros [->|Hin].
  - exists b'. split; [by left | done].
  - destruct (IH Hin) as (b & Hb & HP). exists b. split; [by right | done].
Qed.

(** [dup_each], to the descriptor: the saved descriptors are pairwise
    distinct and new, every other number is as before, and the table has
    grown by one entry per stream. *)
Lemma dup_each_exact (streams : list nat) :
  forall w,
    Forall (fun s => is_Some (fds w !! s)) streams ->
    exists olds t',
      dup_each streams w = (Ok olds, set_fds t' w)
      /\ NoDup olds
      /\ Forall2 (fun o s => t' !! o = fds w !! s /\ fds w !! o = None)
           olds streams
      /\ (forall fd, ~ In fd olds -> t' !! fd = fds w !! fd)
      /\ size t' = size (fds w) + length streams.
Proof.
  induction streams as [|s rest IH]; intros w Hopen.
  - exists [], (fds w). rewrite set_fds_id. simpl.
    repeat split; auto using NoDup_nil_2.
  - apply Forall_cons in Hopen as [[f Hs] Hrest].
    set (o := lowest_free (fds w)).
    pose proof (lowest_free_fresh (fds w)) as Hfresh. fold o in Hfresh.
    set (w1 := set_fds (<[o := f]> (fds w)) w).
    assert (Hkeep : forall fd, is_Some (fds w !! fd) ->
                               fds w1 !! fd = fds w !! fd).
    { intros fd [g Hg]. simpl. apply lookup_insert_ne. congruence. }
    destruct (IH w1) as (olds & t' & Hrun & Hnodup & Hsaved & Hrest' & Hsize).
    { eapply Forall_impl; [exact Hrest|]. intros s' Hs'. simpl in Hs'.
      by rewrite Hkeep. }
    assert (Ho : ~ In o olds).
    { intros Hin.
      destruct (Forall2_In_left _ _ _ _ Hsaved Hin) as (s' & _ & _ & Hnew).
      simpl in Hnew. rewrite lookup_insert_eq in Hnew. done. }
    exists (o :: olds), t'. split; [|split; [|split; [|split]]].
    + simpl. erewrite bind_ok; last first.
      { unfold os_dup. rewrite Hs. reflexivity. }
      fold o. fold w1. erewrite bind_ok; [|exact Hrun]. reflexivity.
    + apply NoDup_cons. split; [by rewrite list_elem_of_In | done].
    + constructor.
      * split; [|exact Hfresh].
        rewrite Hrest' by done. simpl. rewrite lookup_insert_eq. by rewrite Hs.
      * eapply Forall2_impl;
          [exact (Forall2_with_right _ _ _ _ Hsaved Hrest)|].
        intros o' s' [[Ho' Hnew] [g Hg]]. simpl in Ho', Hnew.
        apply lookup_insert_None in Hnew as [Hnew Hne]. split; [|done].
        rewrite Ho'. apply lookup_insert_ne. congruence.
    + intros fd Hfd. rewrite Hrest' by (intros ?; apply Hfd; by right).
      simpl. apply lookup_insert_ne. intros ->. apply Hfd. by left.
    + rewrite Hsize. simpl. rewrite map_size_insert_None by done. lia.
Qed.

(** [muted] around a block that keeps the descriptor table: what is left
    is the table of the entry plus the saved descriptors, which nothing
    closes. *)
Lemma muted_keeping_run {A} (streams : list nat) (block : M A) (w : World) :
  Forall (fun s => is_Some (fds w !! s)) streams ->
  keeps_descriptors block ->
  exists olds t_in t_out,
    muted streams block w
    = (fst (block (set_fds t_in w)),
       set_fds t_out (snd (block (set_fds t_in w))))
    /\ NoDup olds
    /\ Forall2 (fun o s => fds w !! o = None /\ t_out !! o = fds w !! s)
         olds streams
    /\ (forall fd, ~ In fd olds -> t_out !! fd = fds w !! fd)
    /\ size t_out = size (fds w) + length streams.
Proof.
  intros Hopen Hkeeps.
  set (d := lowest_free (fds w)).
  pose proof (lowest_free_fresh (fds w)) as Hd. fold d in Hd.
  set (w1 := set_fds (<[d := os_devnull]> (fds w)) w).
  assert (Hw1 : forall fd, fd <> d -> fds w1 !! fd = fds w !! fd).
  { intros fd Hne. simpl. by apply lookup_insert_ne. }
  assert (Hstream : forall s, In s streams -> is_Some (fds w !! s) /\ s <> d).
  { intros s Hs. rewrite Forall_forall in Hopen.
    destruct (Hopen s) as [g Hg]; [by apply list_elem_of_In|].
    split; [eauto | congruence]. }
  assert (Hopen1 : Forall (fun s => is_Some (fds w1 !! s)) streams).
  { apply Forall_forall. intros s Hs. apply list_elem_of_In in Hs.
    destruct (Hstream s Hs) as [Hsome Hne]. by rewrite Hw1. }
  destruct (dup_each_exact streams w1 Hopen1)
    as (olds & t2 & Hdup & Hnodup & Hsaved & Hkeep2 & Hsize2).
  assert (Hold : forall o, In o olds -> fds w1 !! o = None /\ ~ In o streams).
  { intros o Ho.
    destruct (Forall2_In_left _ _ _ _ Hsaved Ho) as (s & _ & _ & Hnew).
    split; [done|]. intros Hin. rewrite Forall_forall in Hopen1.
    destruct (Hopen1 o) as [g Hg]; [by apply list_elem_of_In|]. congruence. }
  assert (Hd2 : t2 !! d = Some os_devnull).
  { rewrite Hkeep2.
    - simpl. apply lookup_insert_eq.
    - intros Hin. destruct (Hold d Hin) as [Hnone _]. simpl in Hnone.
      by rewrite lookup_insert_eq in Hnone. }
  destruct (redirect_each_spec d os_devnull streams (set_fds t2 w1))
    as (t3 & Hredir & Hmuted & Hkeep3); [exact Hd2|].
  rewrite set_fds_set_fds in Hredir.
  change (set_fds t3 w1) with (set_fds t3 w) in Hredir.
  set (w3 := set_fds t3 w) in *.
  assert (Hb : fds (snd (block w3)) = t3) by apply Hkeeps.
  assert (Hpairs : forall o s, In (o, s) (zip olds streams) ->
            fds (snd (block w3)) !! o = fds w !! s /\ is_Some (fds w !! s)
            /\ ~ In o streams /\ In s streams).
  { intros o s Hin.
    destruct (Forall2_zip_In _ _ _ _ _ Hsaved Hin) as [[Ho Hnew] Hs].
    destruct (Hstream s Hs) as [Hsome Hne].
    assert (Ho_out : ~ In o streams).
    { intros Hin'. rewrite Forall_forall in Hopen1.
      destruct (Hopen1 o) as [g Hg]; [by apply list_elem_of_In|].
      congruence. }
    rewrite Hb, Hkeep3 by done. simpl. rewrite Ho, Hw1 by done. done. }
  destruct (restore_each_spec (fds w) streams (zip olds streams)
              (snd (block w3)) Hpairs)
    as (t4 & Hrestore & Hback & Hkeep4).
  assert (Hlen : length olds = length streams)
    by (eapply Forall2_length; exact Hsaved).
  (* the table after the restore loop is the one after the dup loop *)
  assert (Ht4 : t4 = t2).
  { apply map_eq. intros fd.
    destruct (in_dec Nat.eq_dec fd streams) as [Hin|Hout].
    - destruct (zip_In_right olds streams fd Hlen Hin) as [o Ho].
      rewrite (Hback o fd Ho).
      destruct (Hstream fd Hin) as [Hsome Hne].
      rewrite Hkeep2, Hw1; [done | done |].
      intros Hold'. destruct (Hold fd Hold') as [_ Hnot]. done.
    - rewrite Hkeep4.
      + rewrite Hb, Hkeep3 by done. done.
      + intros o Hin. by destruct (Hpairs o fd Hin) as (_ & _ & _ & ?). }
  subst t4.
  exists olds, t3, (delete d t2). split; [|split; [|split; [|split]]].
  - unfold muted. change (os_open os_devnull w) with (Ok d, w1).
    cbv iota beta. rewrite Hdup, Hredir. fold w3.
    destruct (block w3) as [rb w4] eqn:Hblock. simpl in Hrestore |- *.
    rewrite Hrestore. unfold os_close. simpl fds. rewrite Hd2. reflexivity.
  - done.
  - eapply Forall2_impl; [exact (Forall2_with_right _ _ _ _ Hsaved Hopen)|].
    intros o s [[Ho Hnew] [g Hg]]. simpl in Hnew.
    apply lookup_insert_None in Hnew as [Hnew Hne]. split; [done|].
    rewrite lookup_delete_ne by done. rewrite Ho. apply Hw1. congruence.
  - intros fd Hfd. destruct (decide (fd = d)) as [->|Hne].
    + by rewrite lookup_delete_eq.
    + rewrite lookup_delete_ne by done. rewrite Hkeep2 by done. by apply Hw1.
  - rewrite map_size_delete_Some by eauto. rewrite Hsize2. simpl.
    rewrite map_size_insert_None by done. lia.
Qed.

(** A block that fails: the compiler cannot be run. *)
Lemma muted_restores_open_streams_witness :
  exists w_in,
    (forall s, In s [stdout_fileno; stderr_fileno] ->
       fds w_in !! s = Some os_devnull)
    /\ fst (muted [stdout_fileno; stderr_fileno]
              (raise (OSError "cc: command not found") : M bool) Sample.world)
       = fst ((raise (OSError "cc: command not found") : M bool) w_in)
    /\ (forall s, In s [stdout_fileno; stderr_fileno] ->
          fds (snd (muted [stdout_fileno; stderr_fileno]
                      (raise (OSError "cc: command not found") : M bool)
                      Sample.world)) !! s
          = fds Sample.world !! s)
    /\ fds (snd (muted [stdout_fileno; stderr_fileno]
                   (raise (OSError "cc: command not found") : M bool)
                   Sample.world)) !! lowest_free (fds Sample.world)
       = None.
Proof.
  apply (muted_restores_open_streams [stdout_fileno; stderr_fileno]
           (raise (OSError "cc: command not found") : M bool) Sample.world).
  - repeat constructor; by eexists.
  - intros w fd _ _. reflexivity.
Defined.

(** X2. [muted] never closes the descriptors it saves.  Around a block
    that keeps the descriptor table, over streams that are open, it leaves
    one new descriptor per stream, on the file of that stream; every other
    number is as on entry, so the table has grown by the number of
    streams. *)
Theorem muted_saved_descriptors_stay_open {A} (streams : list nat)
    (block : M A) (w : World) :
  Forall (fun s => is_Some (fds w !! s)) streams ->
  keeps_descriptors block ->
  exists olds,
    NoDup olds
    /\ Forall2 (fun o s =>
                  fds w !! o = None
                  /\ fds (snd (muted streams block w)) !! o = fds w !! s)
         olds streams
    /\ (forall fd, ~ In fd olds ->
          fds (snd (muted streams block w)) !! fd = fds w !! fd)
    /\ size (fds (snd (muted streams block w)))
       = size (fds w) + length streams.
Proof.
  intros Hopen Hkeeps.
  destruct (muted_keeping_run streams block w Hopen Hkeeps)
    as (olds & t_in & t_out & Hrun & Hnodup & Hsaved & Hrest & Hsize).
  exists olds. rewrite Hrun. simpl. done.
Qed.

Lemma muted_saved_descriptors_stay_open_witness :
  exists olds,
    NoDup olds
    /\ Forall2 (fun o s =>
                  fds Sample.world !! o = None
                  /\ fds (snd (muted [stdout_fileno; stderr_fileno]
                                 (ret true) Sample.world)) !! o
                     = fds Sample.world !! s)
         olds [stdout_fileno; stderr_fileno]
    /\ (forall fd, ~ In fd olds ->
          fds (snd (muted [stdout_fileno; stderr_fileno] (ret true)
                      Sample.world)) !! fd
          = fds Sample.world !! fd)
    /\ size (fds (snd (muted [stdout_fileno; stderr_fileno] (ret true)
                         Sample.world)))
       = size (fds Sample.world) + length [stdout_fileno; stderr_fileno].
Proof.
  apply (muted_saved_descriptors_stay_open [stdout_fileno; stderr_fileno]
           (ret true) Sample.world).
  - repeat constructor; by eexists.
  - intros w. reflexivity.
Defined.

Lemma muted_first_dup_fails {A} (s : nat) (rest : list nat)
    (block : M A) (w : World) :
  fds w !! s = None ->
  s <> lowest_free (fds w) ->
  muted (s :: rest) block w
  = (Raise (NameError "old_streams"),
     set_fds (<[lowest_free (fds w) := os_devnull]> (fds w)) w).
Proof.
  intros Hclosed Hne. unfold muted.
  change (os_open os_devnull w)
    with (Ok (lowest_free (fds w)),
          set_fds (<[lowest_free (fds w) := os_devnull]> (fds w)) w).
  cbv iota beta. simpl dup_each. unfold bind at 1. unfold os_dup at 1.
  simpl fds. rewrite lookup_insert_ne by done. rewrite Hclosed. reflexivity.
Qed.

(** X3. When the first stream has no open descriptor, and its number is
    not the one the null device is about to take, [muted] raises
    [NameError] for [old_streams] whatever the block is: the block is not
    run, no stream is redirected, and the only change to the descriptor
    table is the null device handle, left open. *)
Theorem muted_fails_before_block {A} (s : nat) (rest : list nat)
    (block : M A) (w : World) :
  fds w !! s = None ->
  s <> lowest_free (fds w) ->
  muted (s :: rest) block w
  = (Raise (NameError "old_streams"),
     set_fds (<[lowest_free (fds w) := os_devnull]> (fds w)) w).
Proof. apply muted_first_dup_fails. Qed.

Lemma muted_fails_before_block_witness :
  muted (stdout_fileno :: [stderr_fileno]) (ret true) Sample.detached
  = (Raise (NameError "old_streams"),
     set_fds (<[lowest_free (fds Sample.detached) := os_devnull]>
                (fds Sample.detached)) Sample.detached).
Proof.
  apply (muted_fails_before_block stdout_fileno [stderr_fileno] (ret true)
           Sample.detached).
  - reflexivity.
  - vm_compute. discriminate.
Defined.

(** ** [has_function], in full *)

Lemma compiler_keeps_descriptors (env : Env) (f : string)
    (libs : option (list string)) :
  keeps_descriptors (compiler_has_function env f libs).
Proof. intros w. reflexivity. Qed.

(** One probe, with both standard streams open. *)
Lemma has_function_run (env : Env) (f : string)
    (libs : option (list string)) (w : World) :
  std_open w ->
  exists w',
    has_function env f libs w = (Ok (cc_has_function env f libs), w')
    /\ a_out w' = false
    /\ cwd w' = cwd w
    /\ probes w' = probes w ++ [(f, libs)]
    /\ (forall fd, is_Some (fds w !! fd) -> fds w' !! fd = fds w !! fd)
    /\ size (fds w') = size (fds w) + 2.
Proof.
  intros [Hout Herr].
  destruct (muted_keeping_run [stdout_fileno; stderr_fileno]
              (compiler_has_function env f libs) w)
    as (olds & t_in & t_out & Hrun & _ & Hsaved & Hrest & Hsize).
  { by repeat constructor. }
  { apply compiler_keeps_descriptors. }
  assert (Hkeep : forall fd, is_Some (fds w !! fd) -> t_out !! fd = fds w !! fd).
  { intros fd [g Hg]. apply Hrest. intros Hin.
    destruct (Forall2_In_left _ _ _ _ Hsaved Hin) as (s & _ & Hnew & _).
    congruence. }
  unfold has_function. erewrite bind_ok; [|exact Hrun].
  unfold bind, os_path_exists_a_out, os_remove_a_out, ret. simpl.
  destruct (a_out w || cc_has_function env f libs); simpl;
    eexists; (split; [reflexivity|]); simpl; repeat split; auto.
Qed.

(** X4. With both standard streams open, [has_function] returns the
    answer of the compiler and cleans up after it: no [a.out] is left,
    whether one was there before or the probe made one; every descriptor
    that was open, the two streams among them, is on its file again; the
    working directory is the same; and the compiler was asked once. *)
Theorem has_function_cleans_up (env : Env) (f : string)
    (libs : option (list string)) (w : World) :
  std_open w ->
  exists w',
    has_function env f libs w = (Ok (cc_has_function env f libs), w')
    /\ a_out w' = false
    /\ (forall fd, is_Some (fds w !! fd) -> fds w' !! fd = fds w !! fd)
    /\ cwd w' = cwd w
    /\ probes w' = probes w ++ [(f, libs)].
Proof.
  intros Hopen.
  destruct (has_function_run env f libs w Hopen)
    as (w' & Hrun & Haout & Hcwd & Hlog & Hkeep & _).
  by exists w'.
Qed.

Lemma has_function_cleans_up_witness :
  exists w',
    has_function Sample.local_env "MD5_Init" (Some ["crypto"]) Sample.logged
    = (Ok (cc_has_function Sample.local_env "MD5_Init" (Some ["crypto"])), w')
    /\ a_out w' = false
    /\ (forall fd, is_Some (fds Sample.logged !! fd) ->
          fds w' !! fd = fds Sample.logged !! fd)
    /\ cwd w' = cwd Sample.logged
    /\ probes w' = probes Sample.logged ++ [("MD5_Init", Some ["crypto"])].
Proof.
  apply (has_function_cleans_up Sample.local_env "MD5_Init" (Some ["crypto"])
           Sample.logged).
  split; by eexists.
Defined.

(** X5. Every call of [has_function] costs the process two descriptors:
    the copies of the standard output and the standard error that [muted]
    saved are never closed. *)
Theorem has_function_leaks_two_descriptors (env : Env) (f : string)
    (libs : option (list string)) (w : World) :
  std_open w ->
  size (fds (snd (has_function env f libs w))) = size (fds w) + 2.
Proof.
  intros Hopen.
  destruct (has_function_run env f libs w Hopen)
    as (w' & Hrun & _ & _ & _ & _ & Hsize).
  by rewrite Hrun.
Qed.

Lemma has_function_leaks_two_descriptors_witness :
  size (fds (snd (has_function Sample.linux_env "memmem" None Sample.world)))
  = size (fds Sample.world) + 2.
Proof.
  apply (has_function_leaks_two_descriptors Sample.linux_env "memmem" None
           Sample.world).
  exact sample_std_open.
Defined.

Lemma has_function_first_dup_fails (env : Env) (f : string)
    (libs : option (list string)) (w : World) :
  fds w !! stdout_fileno = None ->
  stdout_fileno <> lowest_free (fds w) ->
  has_function env f libs w
  = (Raise (NameError "old_streams"),
     set_fds (<[lowest_free (fds w) := os_devnull]> (fds w)) w).
Proof.
  intros Hclosed Hne. unfold has_function, bind.
  by rewrite (muted_first_dup_fails stdout_fileno [stderr_fileno]
                (compiler_has_function env f libs) w Hclosed Hne).
Qed.

(** ** [initialize_options], [finalize_options] and [run] together *)

Ltac split_In :=
  repeat (progress (rewrite ?in_app_iff, ?In_opt; simpl)).

(** X6. A command on which no option was set passes [finalize_options]
    and is built statically, without the optional modules: [yara] is not
    linked, [magic.c] and [cuckoo.c] are among the excluded paths, and
    none of [MAGIC], [CUCKOO] and [PROFILING_ENABLED] is defined. *)
Theorem default_options_build_statically (env : Env)
    (build_initialize_options : build -> build) (self : BuildCommand)
    (b : build) (plat : string) (w : World) :
  build_finalize_options env (build_initialize_options (base self)) = Ok b ->
  plat_name b = Some plat ->
  std_open w ->
  exists self' ls w',
    finalize_options env (initialize_options build_initialize_options self)
    = Ok self'
    /\ run_configure env self' w = (Ok ls, w')
    /\ ~ In "yara" (libraries ls)
    /\ (exists paths,
          exclusions ls = map (os_path_normpath env) paths
          /\ In "yara/libyara/modules/magic.c" paths
          /\ In "yara/libyara/modules/cuckoo.c" paths)
    /\ (forall value,
          ~ In ("MAGIC", value) (macros ls)
          /\ ~ In ("CUCKOO", value) (macros ls)
          /\ ~ In ("PROFILING_ENABLED", value) (macros ls)).
Proof.
  intros Hbase Hplat Hopen.
  set (self' := set_base b (initialize_options build_initialize_options self)).
  destruct (run_configure_ok env self' plat w Hplat Hopen) as (w' & Hrun & _).
  exists self', (derived env self' (run_cwd env w)), w'.
  split; [|split; [exact Hrun|]].
  { unfold finalize_options. simpl. by rewrite Hbase. }
  pose proof (win_bits_names self' plat Hplat) as Hbits.
  simpl. split; [|split].
  - unfold derived_libraries, static_build. simpl. rewrite Hbits.
    destruct (on_windows self'), (String.eqb plat "win-amd64"); split_In;
      intuition discriminate.
  - exists (excluded_paths env self'). unfold derived_exclusions, static_build.
    simpl. split; [reflexivity|].
    unfold excluded_paths, disabled_modules, static_build. simpl.
    rewrite !in_app_iff. simpl. tauto.
  - intros value. unfold derived_macros, static_build. simpl.
    split_In. intuition discriminate.
Qed.

Lemma default_options_build_statically_witness :
  exists self' ls w',
    finalize_options Sample.linux_env
      (initialize_options (fun b => mkBuild None (ext_modules b))
         (Sample.command "" (PyInt 1) (PyInt 1) (PyInt 1) (PyInt 1)))
    = Ok self'
    /\ run_configure Sample.linux_env self' Sample.world = (Ok ls, w')
    /\ ~ In "yara" (libraries ls)
    /\ (exists paths,
          exclusions ls = map (os_path_normpath Sample.linux_env) paths
          /\ In "yara/libyara/modules/magic.c" paths
          /\ In "yara/libyara/modules/cuckoo.c" paths)
    /\ (forall value,
          ~ In ("MAGIC", value) (macros ls)
          /\ ~ In ("CUCKOO", value) (macros ls)
          /\ ~ In ("PROFILING_ENABLED", value) (macros ls)).
Proof.
  apply (default_options_build_statically Sample.linux_env
           (fun b => mkBuild None (ext_modules b))
           (Sample.command "" (PyInt 1) (PyInt 1) (PyInt 1) (PyInt 1))
           (mkBuild (Some "linux-x86_64") []) "linux-x86_64" Sample.world).
  - reflexivity.
  - reflexivity.
  - exact sample_std_open.
Defined.

(** X7. On a finalized command, with both standard streams open, [run]
    raises nothing before the inherited [build.run]: it ends as that one
    ends, started on the one [Extension] made of the locals, whose extra
    compile arguments are empty. *)
Theorem run_hands_extension_to_build (env : Env) (self : BuildCommand)
    (plat : string) (w : World) :
  plat_name (base self) = Some plat ->
  std_open w ->
  exists ls w',
    run_configure env self w = (Ok ls, w')
    /\ run env self w = build_run env (mkBuild (Some plat) [extension_of ls]) w'
    /\ ext_sources (extension_of ls) = sources ls
    /\ ext_libraries (extension_of ls) = libraries ls
    /\ ext_define_macros (extension_of ls) = macros ls
    /\ ext_extra_compile_args (extension_of ls) = [].
Proof.
  intros Hplat Hopen.
  destruct (run_configure_ok env self plat w Hplat Hopen) as (w' & Hrun & _).
  eexists _, w'. split; [exact Hrun|]. split; [|done].
  unfold run. erewrite bind_ok; [|exact Hrun]. by rewrite Hplat.
Qed.

Lemma run_hands_extension_to_build_witness :
  exists ls w',
    run_configure Sample.local_env
      (Sample.command "linux-x86_64" PyNone PyNone PyNone PyNone)
      Sample.logged = (Ok ls, w')
    /\ run Sample.local_env
         (Sample.command "linux-x86_64" PyNone PyNone PyNone PyNone)
         Sample.logged
       = build_run Sample.local_env
           (mkBuild (Some "linux-x86_64") [extension_of ls]) w'
    /\ ext_sources (extension_of ls) = sources ls
    /\ ext_libraries (extension_of ls) = libraries ls
    /\ ext_define_macros (extension_of ls) = macros ls
    /\ ext_extra_compile_args (extension_of ls) = [].
Proof.
  apply (run_hands_extension_to_build Sample.local_env
           (Sample.command "linux-x86_64" PyNone PyNone PyNone PyNone)
           "linux-x86_64" Sample.logged).
  - reflexivity.
  - split; by eexists.
Defined.

(** ** The optional modules *)





(** ** Hashing and the order of the probes *)



(** X11. The second hashing probe is made only when the first one
    succeeds: in a static build off Windows where [MD5_Init] does not
    link, the compiler is never asked for [SHA256_Init]. *)
Theorem failed_md5_skips_sha256 (env : Env) (self : BuildCommand)
    (plat : string) (w : World) :
  plat_name (base self) = Some plat ->
  plat <> "win32" -> plat <> "win-amd64" ->
  truthy (dynamic_linking self) = false ->
  cc_has_function env "MD5_Init" (Some ["crypto"]) = false ->
  std_open w ->
  exists ls w',
    run_configure env self w = (Ok ls, w')
    /\ probes w'
       = probes w
         ++ [("memmem", None); ("strlcpy", None); ("strlcat", None);
             ("MD5_Init", Some ["crypto"])].
Proof.
  intros Hplat Hne32 Hne64 Hdyn Hmd5 Hopen.
  destruct (run_configure_ok env self plat w Hplat Hopen)
    as (w' & Hrun & _ & _ & Hlog).
  assert (Hstatic : static_build self = true)
    by (unfold static_build; by rewrite Hdyn).
  assert (Hwin : on_windows self = false).
  { destruct (on_windows self) eqn:Hwin; [|done].
    apply (on_windows_names self plat Hplat) in Hwin. tauto. }
  eexists _, w'. split; [exact Hrun|].
  rewrite Hlog. unfold probes_made. by rewrite Hstatic, Hwin, Hmd5.
Qed.

Lemma failed_md5_skips_sha256_witness :
  exists ls w',
    run_configure Sample.bare_env
      (Sample.command "linux-x86_64" PyNone PyNone PyNone PyNone)
      Sample.world = (Ok ls, w')
    /\ probes w'
       = probes Sample.world
         ++ [("memmem", None); ("strlcpy", None); ("strlcat", None);
             ("MD5_Init", Some ["crypto"])].
Proof.
  apply (failed_md5_skips_sha256 Sample.bare_env
           (Sample.command "linux-x86_64" PyNone PyNone PyNone PyNone)
           "linux-x86_64" Sample.world);
    try reflexivity; try discriminate.
  exact sample_std_open.
Defined.

(** X12. With [dynamic_linking] set [run] looks at none of the module
    flags and makes no hashing probe: the libraries are [yara] and, on
    Windows, [advapi32] and [user32]; none of [HASH], [MAGIC] and
    [CUCKOO] is defined; the exclusion list is still the one path it
    started with, not normalised; and the three probes for [memmem],
    [strlcpy] and [strlcat] are all there are. *)
Theorem dynamic_build_ignores_modules (env : Env) (self : BuildCommand)
    (plat : string) (w : World) :
  plat_name (base self) = Some plat ->
  truthy (dynamic_linking self) = true ->
  std_open w ->
  exists ls w',
    run_configure env self w = (Ok ls, w')
    /\ libraries ls
       = "yara" :: (if String.eqb plat "win32" || String.eqb plat "win-amd64"
                    then ["advapi32"; "user32"] else [])
    /\ (forall value,
          ~ In ("HASH", value) (macros ls)
          /\ ~ In ("MAGIC", value) (macros ls)
          /\ ~ In ("CUCKOO", value) (macros ls))
    /\ exclusions ls = ["yara/libyara/modules/pe_utils.c"]
    /\ probes w'
       = probes w ++ [("memmem", None); ("strlcpy", None); ("strlcat", None)].
Proof.
  intros Hplat Hdyn Hopen.
  destruct (run_configure_ok env self plat w Hplat Hopen)
    as (w' & Hrun & _ & _ & Hlog).
  assert (Hstatic : static_build self = false)
    by (unfold static_build; by rewrite Hdyn).
  assert (Hwin : on_windows self
                 = String.eqb plat "win32" || String.eqb plat "win-amd64").
  { unfold on_windows, plat_name_in. rewrite Hplat. simpl.
    by rewrite orb_false_r. }
  eexists _, w'. split; [exact Hrun|]. simpl. split; [|split; [|split]].
  - unfold derived_libraries. rewrite Hstatic, Hwin. simpl.
    by rewrite app_nil_r.
  - intros value. unfold derived_macros. rewrite Hstatic.
    split_In. intuition discriminate.
  - unfold derived_exclusions, excluded_paths. by rewrite Hstatic.
  - rewrite Hlog. unfold probes_made. by rewrite Hstatic.
Qed.

Lemma dynamic_build_ignores_modules_witness :
  exists ls w',
    run_configure Sample.linux_env
      (Sample.command "win32" (PyInt 1) (PyInt 1) (PyInt 1) PyNone)
      Sample.world = (Ok ls, w')
    /\ libraries ls
       = "yara" :: (if String.eqb "win32" "win32"
                       || String.eqb "win32" "win-amd64"
                    then ["advapi32"; "user32"] else [])
    /\ (forall value,
          ~ In ("HASH", value) (macros ls)
          /\ ~ In ("MAGIC", value) (macros ls)
          /\ ~ In ("CUCKOO", value) (macros ls))
    /\ exclusions ls = ["yara/libyara/modules/pe_utils.c"]
    /\ probes w'
       = probes Sample.world
         ++ [("memmem", None); ("strlcpy", None); ("strlcat", None)].
Proof.
  apply (dynamic_build_ignores_modules Sample.linux_env
           (Sample.command "win32" (PyInt 1) (PyInt 1) (PyInt 1) PyNone)
           "win32" Sample.world).
  - reflexivity.
  - reflexivity.
  - exact sample_std_open.
Defined.

(** X13. Each of [HAVE_MEMMEM], [HAVE_STRLCPY] and [HAVE_STRLCAT] is
    defined exactly when the compiler links the function of that name,
    in every build. *)
Theorem have_macros_follow_probes (env : Env) (self : BuildCommand)
    (plat : string) (w : World) :
  plat_name (base self) = Some plat ->
  std_open w ->
  exists ls w',
    run_configure env self w = (Ok ls, w')
    /\ (In ("HAVE_MEMMEM", "1") (macros ls)
        <-> cc_has_function env "memmem" None = true)
    /\ (In ("HAVE_STRLCPY", "1") (macros ls)
        <-> cc_has_function env "strlcpy" None = true)
    /\ (In ("HAVE_STRLCAT", "1") (macros ls)
        <-> cc_has_function env "strlcat" None = true).
Proof.
  intros Hplat Hopen.
  destruct (run_configure_ok env self plat w Hplat Hopen) as (w' & Hrun & _).
  eexists _, w'. split; [exact Hrun|]. simpl.
  unfold derived_macros. split_In. intuition discriminate.
Qed.

Lemma have_macros_follow_probes_witness :
  exists ls w',
    run_configure Sample.linux_env
      (Sample.command "linux-x86_64" PyNone PyNone PyNone PyNone)
      Sample.world = (Ok ls, w')
    /\ (In ("HAVE_MEMMEM", "1") (macros ls)
        <-> cc_has_function Sample.linux_env "memmem" None = true)
    /\ (In ("HAVE_STRLCPY", "1") (macros ls)
        <-> cc_has_function Sample.linux_env "strlcpy" None = true)
    /\ (In ("HAVE_STRLCAT", "1") (macros ls)
        <-> cc_has_function Sample.linux_env "strlcat" None = true).
Proof.
  apply (have_macros_follow_probes Sample.linux_env
           (Sample.command "linux-x86_64" PyNone PyNone PyNone PyNone)
           "linux-x86_64" Sample.world).
  - reflexivity.
  - exact sample_std_open.
Defined.

(** ** Sources, directories and the working directory *)

(** X14. In a static build the sources are [yara-python.c] followed by
    the discovered files, in the order of the walk and as often as the
    walk yields them, that end in [.c] and are not on the final exclusion
    list. *)
Theorem sources_follow_the_walk (env : Env) (self : BuildCommand)
    (plat : string) (w : World) :
  plat_name (base self) = Some plat ->
  truthy (dynamic_linking self) = false ->
  std_open w ->
  exists ls w',
    run_configure env self w = (Ok ls, w')
    /\ sources ls
       = "yara-python.c"
         :: List.filter
              (fun x => endswith x ".c" && negb (list_in x (exclusions ls)))
              (flat_map
                 (fun '(directory, _, files) =>
                    map (fun x => os_path_normpath env
                                    (os_path_join env directory x)) files)
                 (os_walk env (cwd w') "yara/libyara/")).
Proof.
  intros Hplat Hdyn Hopen.
  destruct (run_configure_ok env self plat w Hplat Hopen)
    as (w' & Hrun & _ & Hcwd & _).
  eexists _, w'. split; [exact Hrun|]. simpl.
  unfold derived_sources, static_build. rewrite Hdyn, Hcwd. reflexivity.
Qed.

Lemma sources_follow_the_walk_witness :
  exists ls w',
    run_configure Sample.linux_env
      (Sample.command "linux-x86_64" PyNone PyNone PyNone PyNone)
      Sample.world = (Ok ls, w')
    /\ sources ls
       = "yara-python.c"
         :: List.filter
              (fun x => endswith x ".c" && negb (list_in x (exclusions ls)))
              (flat_map
                 (fun '(directory, _, files) =>
                    map (fun x => os_path_normpath Sample.linux_env
                                    (os_path_join Sample.linux_env directory x))
                      files)
                 (os_walk Sample.linux_env (cwd w') "yara/libyara/")).
Proof.
  apply (sources_follow_the_walk Sample.linux_env
           (Sample.command "linux-x86_64" PyNone PyNone PyNone PyNone)
           "linux-x86_64" Sample.world).
  - reflexivity.
  - reflexivity.
  - exact sample_std_open.
Defined.



Example sample_run_directory :
  cwd (snd (run_configure Sample.linux_env
              (Sample.command "linux-x86_64" PyNone PyNone PyNone PyNone)
              Sample.world))
  = "/src/yara-python".
Proof. vm_compute. reflexivity. Qed.

(** X16. On a command that was not finalized, [plat_name] still [None],
    [run] raises [TypeError] at the test for [macosx]: the working
    directory has been changed by then, no probe has been made. *)
Theorem run_before_finalize_raises (env : Env) (self : BuildCommand)
    (w : World) :
  plat_name (base self) = None ->
  exists msg w',
    run_configure env self w = (Raise (TypeError msg), w')
    /\ run env self w = (Raise (TypeError msg), w')
    /\ probes w' = probes w
    /\ fds w' = fds w.
Proof.
  intros Hplat.
  assert (Hrun : run_configure env self w
                 = (Raise (TypeError "argument of type 'NoneType' is not iterable"),
                    set_cwd (run_cwd env w) w)).
  { unfold run_configure. cbv zeta.
    erewrite bind_ok; [|apply chdir_step].
    unfold in_plat_name. rewrite Hplat. reflexivity. }
  eexists _, _. split; [exact Hrun|]. split; [|done].
  unfold run, bind. by rewrite Hrun.
Qed.

Lemma run_before_finalize_raises_witness :
  exists msg w',
    run_configure Sample.linux_env
      (mkBuildCommand (mkBuild None []) PyNone PyNone PyNone PyNone)
      Sample.world = (Raise (TypeError msg), w')
    /\ run Sample.linux_env
         (mkBuildCommand (mkBuild None []) PyNone PyNone PyNone PyNone)
         Sample.world = (Raise (TypeError msg), w')
    /\ probes w' = probes Sample.world
    /\ fds w' = fds Sample.world.
Proof.
  apply (run_before_finalize_raises Sample.linux_env
           (mkBuildCommand (mkBuild None []) PyNone PyNone PyNone PyNone)
           Sample.world).
  reflexivity.
Defined.

(** X17. The Windows directories belong to the static build alone:
    [yara/windows/include] is among the include directories, and
    [yara/windows/lib] among the library directories, exactly when
    [plat_name] is [win32] or [win-amd64] and [dynamic_linking] is not
    set. *)
Theorem windows_directories_only_static (env : Env) (self : BuildCommand)
    (plat : string) (w : World) :
  plat_name (base self) = Some plat ->
  std_open w ->
  exists ls w',
    run_configure env self w = (Ok ls, w')
    /\ (In "yara/windows/include" (include_dirs ls)
        <-> (plat = "win32" \/ plat = "win-amd64")
            /\ truthy (dynamic_linking self) = false)
    /\ (In "yara/windows/lib" (library_dirs ls)
        <-> (plat = "win32" \/ plat = "win-amd64")
            /\ truthy (dynamic_linking self) = false).
Proof.
  intros Hplat Hopen.
  destruct (run_configure_ok env self plat w Hplat Hopen) as (w' & Hrun & _).
  pose proof (on_windows_names self plat Hplat) as Hwin.
  eexists _, w'. split; [exact Hrun|]. simpl.
  unfold derived_include_dirs, derived_library_dirs, static_build.
  rewrite <- Hwin.
  destruct (on_windows self), (truthy (dynamic_linking self)); split_In;
    intuition discriminate.
Qed.

Lemma windows_directories_only_static_witness :
  exists ls w',
    run_configure Sample.bare_env
      (Sample.command "win-amd64" PyNone PyNone PyNone PyNone)
      Sample.world = (Ok ls, w')
    /\ (In "yara/windows/include" (include_dirs ls)
        <-> ("win-amd64" = "win32" \/ "win-amd64" = "win-amd64")
            /\ truthy PyNone = false)
    /\ (In "yara/windows/lib" (library_dirs ls)
        <-> ("win-amd64" = "win32" \/ "win-amd64" = "win-amd64")
            /\ truthy PyNone = false).
Proof.
  apply (windows_directories_only_static Sample.bare_env
           (Sample.command "win-amd64" PyNone PyNone PyNone PyNone)
           "win-amd64" Sample.world).
  - reflexivity.
  - exact sample_std_open.
Defined.

(** ** What [run] never defines or lists twice *)

Lemma opt_sublist {A} (b : bool) (l : list A) : opt b l `sublist_of` l.
Proof. destruct b; [done | apply sublist_nil_l]. Qed.

Lemma map_opt {A B} (g : A -> B) (b : bool) (l : list A) :
  map g (opt b l) = opt b (map g l).
Proof. by destruct b. Qed.

(** X18. No macro is defined twice and no library is listed twice in the
    [Extension] that [run] builds. *)
Theorem macros_and_libraries_listed_once (env : Env) (self : BuildCommand)
    (plat : string) (w : World) :
  plat_name (base self) = Some plat ->
  std_open w ->
  exists ls w',
    run_configure env self w = (Ok ls, w')
    /\ NoDup (map fst (macros ls))
    /\ NoDup (libraries ls).
Proof.
  intros Hplat Hopen.
  destruct (run_configure_ok env self plat w Hplat Hopen) as (w' & Hrun & _).
  eexists _, w'. split; [exact Hrun|]. simpl. split.
  - apply (sublist_NoDup _
             ["_CRT_SECURE_NO_WARNINGS"; "HAVE_MEMMEM"; "HAVE_STRLCPY";
              "HAVE_STRLCAT"; "PROFILING_ENABLED"; "HASH"; "MAGIC"; "CUCKOO"]).
    { compute_done. }
    unfold derived_macros. rewrite !map_app, !map_opt, !map_app, !map_opt.
    simpl.
    repeat (apply (sublist_app _ [_]); [apply opt_sublist|]).
    etrans; [apply opt_sublist|].
    repeat (apply (sublist_app _ [_]); [apply opt_sublist|]).
    apply opt_sublist.
  - assert (Hbits : win_bits self = "32" \/ win_bits self = "64").
    { unfold win_bits. destruct (plat_name_in self ["win-amd64"]); auto. }
    apply (sublist_NoDup _
             ["yara"; "advapi32"; "user32";
              String.append "libeay" (win_bits self); "crypto";
              String.append "jansson" (win_bits self); "jansson"]).
    { destruct Hbits as [-> | ->]; compute_done. }
    unfold derived_libraries.
    apply (sublist_app _ [_]); [apply opt_sublist|].
    apply (sublist_app _ [_; _]); [apply opt_sublist|].
    etrans; [apply opt_sublist|].
    apply (sublist_app _ [_; _] _ [_; _]).
    + destruct (on_windows self).
      * by apply sublist_skip, sublist_nil_l.
      * apply sublist_cons. apply opt_sublist.
    + etrans; [apply opt_sublist|].
      destruct (on_windows self).
      * by apply sublist_skip, sublist_nil_l.
      * by apply sublist_cons.
Qed.

Lemma macros_and_libraries_listed_once_witness :
  exists ls w',
    run_configure Sample.bare_env
      (Sample.command "win-amd64" PyNone (PyInt 1) (PyInt 1) (PyInt 1))
      Sample.world = (Ok ls, w')
    /\ NoDup (map fst (macros ls))
    /\ NoDup (libraries ls).
Proof.
  apply (macros_and_libraries_listed_once Sample.bare_env
           (Sample.command "win-amd64" PyNone (PyInt 1) (PyInt 1) (PyInt 1))
           "win-amd64" Sample.world).
  - reflexivity.
  - exact sample_std_open.
Defined.

(** ** The descriptors over a whole run *)

Lemma leaks_two_per_probe_trans (w1 w2 w3 : World) :
  leaks_two_per_probe w1 w2 -> leaks_two_per_probe w2 w3 ->
  leaks_two_per_probe w1 w3.
Proof.
  intros [Hkeep1 Hsize1] [Hkeep2 Hsize2]. split; [|lia].
  intros fd Hfd. rewrite Hkeep2; [by apply Hkeep1|].
  by rewrite Hkeep1.
Qed.

Lemma returns_has_function_leak (env : Env) (f : string)
    (libs : option (list string)) (w0 w : World) (Q : bool -> World -> Prop) :
  leaks_two_per_probe w0 w ->
  std_open w ->
  (forall w', leaks_two_per_probe w0 w' -> std_open w' ->
              Q (cc_has_function env f libs) w') ->
  returns (has_function env f libs) w Q.
Proof.
  intros Hleak Hopen HQ.
  destruct (has_function_run env f libs w Hopen)
    as (w' & Hrun & _ & _ & Hlog & Hkeep & Hsize).
  unfold returns. rewrite Hrun. apply HQ.
  - apply (leaks_two_per_probe_trans w0 w w'); [done|].
    split; [done|]. rewrite Hlog, length_app. simpl. lia.
  - destruct Hopen as [Hout Herr]. split; by rewrite Hkeep.
Qed.

Ltac step_leak :=
  lazymatch goal with
  | |- returns (bind (has_function _ _ _) _) _ _ =>
      apply returns_bind;
      eapply returns_has_function_leak; [eassumption | assumption |];
      let w := fresh "w" in
      let Hleak := fresh "Hleak" in
      let Hopen := fresh "Hopen" in
      intros w Hleak Hopen; use_outcomes; cbv beta iota
  | |- returns (has_function _ _ _) _ _ =>
      eapply returns_has_function_leak; [eassumption | assumption |];
      let w := fresh "w" in
      let Hleak := fresh "Hleak" in
      let Hopen := fresh "Hopen" in
      intros w Hleak Hopen; use_outcomes; cbv beta iota
  | |- returns (bind (py_and _ _) _) _ _ =>
      apply returns_bind; unfold py_and
  | |- returns (bind (os_walk_m _ _) _) _ _ =>
      apply returns_bind; unfold returns at 1, os_walk_m; cbv beta iota
  | |- returns (bind (ret _) _) _ _ =>
      apply returns_bind, returns_ret; cbv beta
  | |- returns (bind (bind _ _) _) _ _ => apply returns_bind
  | |- returns (ret _) _ _ => apply returns_ret; cbv beta
  end.

Lemma run_configure_leaks (env : Env) (self : BuildCommand)
    (plat : string) (w : World) :
  plat_name (base self) = Some plat ->
  std_open w ->
  returns (run_configure env self) w (fun _ w' => leaks_two_per_probe w w').
Proof.
  intros Hplat Hopen.
  unfold run_configure. cbv zeta.
  apply returns_bind. unfold returns at 1. rewrite chdir_step.
  assert (Hopen0 : std_open (set_cwd (run_cwd env w) w)) by exact Hopen.
  assert (Hleak0 : leaks_two_per_probe w (set_cwd (run_cwd env w) w)).
  { split; [done|]. simpl. lia. }
  generalize dependent (set_cwd (run_cwd env w) w). intros w0 Hopen0 Hleak0.
  unfold in_plat_name. rewrite Hplat.
  repeat step_leak.
  rewrite !locals_before_linking.
  destruct (truthy (dynamic_linking self)); simpl negb; cbv iota;
    [by step_leak|].
  destruct (plat_name_in self ["win32"; "win-amd64"]) eqn:Hwin;
    destruct (truthy (enable_cuckoo self)) eqn:Hcuckoo;
    destruct (cc_has_function env "MD5_Init" (Some ["crypto"])) eqn:Hmd5;
    destruct (cc_has_function env "SHA256_Init" (Some ["crypto"])) eqn:Hsha;
    simpl; repeat step_leak; assumption.
Qed.

(** X19. A whole run leaves every descriptor it found open on its file,
    the standard streams among them, and leaves two more descriptors open
    for each compiler probe it made: between six and ten in all. *)
Theorem run_leaks_two_descriptors_per_probe (env : Env)
    (self : BuildCommand) (plat : string) (w : World) :
  plat_name (base self) = Some plat ->
  std_open w ->
  exists ls w',
    run_configure env self w = (Ok ls, w')
    /\ (forall fd, is_Some (fds w !! fd) -> fds w' !! fd = fds w !! fd)
    /\ size (fds w') + 2 * length (probes w)
       = size (fds w) + 2 * length (probes w')
    /\ size (fds w) + 6 <= size (fds w') <= size (fds w) + 10.
Proof.
  intros Hplat Hopen.
  destruct (run_configure_ok env self plat w Hplat Hopen)
    as (w' & Hrun & _ & _ & Hlog).
  pose proof (run_configure_leaks env self plat w Hplat Hopen) as Hleak.
  unfold returns in Hleak. rewrite Hrun in Hleak.
  destruct Hleak as [Hkeep Hsize].
  eexists _, w'. split; [exact Hrun|]. split; [done|]. split; [done|].
  rewrite Hlog, length_app in Hsize. unfold probes_made in Hsize.
  destruct (static_build self && negb (on_windows self)),
    (cc_has_function env "MD5_Init" (Some ["crypto"]));
    simpl in Hsize; lia.
Qed.

Lemma run_leaks_two_descriptors_per_probe_witness :
  exists ls w',
    run_configure Sample.linux_env
      (Sample.command "linux-x86_64" PyNone PyNone PyNone PyNone)
      Sample.world = (Ok ls, w')
    /\ (forall fd, is_Some (fds Sample.world !! fd) ->
          fds w' !! fd = fds Sample.world !! fd)
    /\ size (fds w') + 2 * length (probes Sample.world)
       = size (fds Sample.world) + 2 * length (probes w')
    /\ size (fds Sample.world) + 6 <= size (fds w')
       <= size (fds Sample.world) + 10.
Proof.
  apply (run_leaks_two_descriptors_per_probe Sample.linux_env
           (Sample.command "linux-x86_64" PyNone PyNone PyNone PyNone)
           "linux-x86_64" Sample.world).
  - reflexivity.
  - exact sample_std_open.
Defined.

(** X20. With the standard output closed, and its number not the lowest
    free one, a run stops at its first probe: [run] raises [NameError]
    for [old_streams], the compiler is never asked, and the inherited
    [build.run] is never reached. *)
Theorem run_needs_stdout (env : Env) (self : BuildCommand)
    (plat : string) (w : World) :
  plat_name (base self) = Some plat ->
  fds w !! stdout_fileno = None ->
  stdout_fileno <> lowest_free (fds w) ->
  exists w',
    run_configure env self w = (Raise (NameError "old_streams"), w')
    /\ run env self w = (Raise (NameError "old_streams"), w')
    /\ probes w' = probes w.
Proof.
  intros Hplat Hclosed Hne.
  assert (Hrun : run_configure env self w
                 = (Raise (NameError "old_streams"),
                    set_fds (<[lowest_free (fds w) := os_devnull]> (fds w))
                      (set_cwd (run_cwd env w) w))).
  { unfold run_configure. cbv zeta.
    erewrite bind_ok; [|apply chdir_step].
    unfold in_plat_name. rewrite Hplat.
    erewrite bind_ok; [|reflexivity].
    unfold bind at 1.
    by rewrite (has_function_first_dup_fails env "memmem" None
                  (set_cwd (run_cwd env w) w) Hclosed Hne). }
  eexists. split; [exact Hrun|]. split; [|done].
  unfold run, bind. by rewrite Hrun.
Qed.

Lemma run_needs_stdout_witness :
  exists w',
    run_configure Sample.linux_env
      (Sample.command "linux-x86_64" PyNone PyNone PyNone PyNone)
      Sample.detached = (Raise (NameError "old_streams"), w')
    /\ run Sample.linux_env
         (Sample.command "linux-x86_64" PyNone PyNone PyNone PyNone)
         Sample.detached = (Raise (NameError "old_streams"), w')
    /\ probes w' = probes Sample.detached.
Proof.
  apply (run_needs_stdout Sample.linux_env
           (Sample.command "linux-x86_64" PyNone PyNone PyNone PyNone)
           "linux-x86_64" Sample.detached).
  - reflexivity.
  - reflexivity.
  - vm_compute. discriminate.
Defined.
